(** * Table action menu and table cell node of the Lexical playground

    A shallow embedding of
    [packages/lexical-playground/src/plugins/TableActionMenuPlugin.jsx]:
    the [TableCellNode] class with its DOM conversion, and the callbacks of
    the [TableActionMenu] component that read the selection and issue table
    mutations.

    Conventions of the embedding.
    - A JavaScript [number] is an integer of [Z] where the code only stores,
      compares, adds and subtracts it; the width [exportDOM] computes is a
      binary64 [float], with the division and [Math.max] of the doubles.
    - An optional value ([?number], [?string]) is an [option]; [None] is
      [undefined].
    - A node value holds the fields of the object that the active node map
      registers under the node's key, which is the object [getLatest()]
      returns; the running [editor.update] transaction is threaded explicitly
      through the [Update] monad.
    - A thrown [Error] is the [Throw] case of [Result]. *)

From Stdlib Require Import ZArith QArith Ascii.
From Stdlib Require Import Floats.PrimFloat Numbers.Cyclic.Int63.Uint63.
From stdpp Require Import base gmap strings list pretty.

Open Scope Z_scope.

(** ** JavaScript values *)

(** [ToBoolean], as applied by [if (x)], [x && y] and [x || y]. *)
Class ToBoolean (A : Type) := toBoolean : A → bool.

#[global] Instance string_ToBoolean : ToBoolean string :=
  λ s, match s with EmptyString => false | String _ _ => true end.

#[global] Instance number_ToBoolean : ToBoolean Z :=
  λ n, negb (n =? 0).

#[global] Instance optional_ToBoolean {A} `{ToBoolean A} : ToBoolean (option A) :=
  λ x, match x with Some a => toBoolean a | None => false end.

(** The text a template literal [`${x}`] produces for an optional string. *)
Definition template (x : option string) : string := default "undefined" x.

(** Outcome of a callback: normal completion or a thrown [Error]. *)
Inductive Result (A : Type) : Type :=
| Ok (value : A)
| Throw (message : string).
Arguments Ok {A} value.
Arguments Throw {A} message.

Definition isThrow {A} (r : Result A) : bool :=
  match r with Ok _ => false | Throw _ => true end.

(** ** The running transaction *)

Definition NodeKey := string.

(** The part of the host editor that node methods touch while an
    [editor.update] callback runs: the keys whose latest object is already a
    mutable clone, and the counter new keys are drawn from. *)
Record Transaction := mkTransaction {
  cloneNotNeeded : gset NodeKey;
  keyCounter : N }.

Definition Update (A : Type) : Type := Transaction → A * Transaction.

Definition ret {A} (a : A) : Update A := λ t, (a, t).

Definition bind {A B} (c : Update A) (k : A → Update B) : Update B :=
  λ t, let '(a, t') := c t in k a t'.

Notation "'let*' x := c 'in' k" := (bind c (λ x, k))
  (at level 10, x name, c at level 100, k at level 200).

(** Modelled from the spec: the host's key assignment in the node base
    constructor is not part of the source. A key passed to the constructor is
    kept (the node's "stable key"); without one the node gets a key that is
    drawn from the transaction's counter. *)
Definition setNodeKey (existingKey : option NodeKey) : Update NodeKey :=
  λ t, match existingKey with
       | Some key => (key, t)
       | None => (pretty (keyCounter t),
                  mkTransaction (cloneNotNeeded t) (keyCounter t + 1)%N)
       end.

(** ** TableCellNode *)

Module TableCellHeaderStates.
Definition NO_STATUS : Z := 0.
Definition ROW : Z := 1.
Definition COLUMN : Z := 2.
Definition BOTH : Z := 3.
End TableCellHeaderStates.
Import TableCellHeaderStates.

Record TableCellNode := mkTableCellNode {
  __colSpan : Z;
  __key : NodeKey;
  __headerState : Z;
  __width : option Z;
  __backgroundColorStyle : option string;
  __borderStyle : option string }.

(** Properties that are read by the class but that no constructor or method
    ever assigns: reading them yields [undefined]. *)
Definition __bg (this : TableCellNode) : option string := None.
Definition backgroundColorStyle (this : TableCellNode) : option string := None.
Definition borderStyle (this : TableCellNode) : option string := None.

Definition set__key (key : NodeKey) (n : TableCellNode) : TableCellNode :=
  mkTableCellNode (__colSpan n) key (__headerState n) (__width n)
    (__backgroundColorStyle n) (__borderStyle n).
Definition set__headerState (headerState : Z) (n : TableCellNode) : TableCellNode :=
  mkTableCellNode (__colSpan n) (__key n) headerState (__width n)
    (__backgroundColorStyle n) (__borderStyle n).
Definition set__width (width : option Z) (n : TableCellNode) : TableCellNode :=
  mkTableCellNode (__colSpan n) (__key n) (__headerState n) width
    (__backgroundColorStyle n) (__borderStyle n).
Definition set__backgroundColorStyle (v : option string) (n : TableCellNode) : TableCellNode :=
  mkTableCellNode (__colSpan n) (__key n) (__headerState n) (__width n)
    v (__borderStyle n).
Definition set__borderStyle (v : option string) (n : TableCellNode) : TableCellNode :=
  mkTableCellNode (__colSpan n) (__key n) (__headerState n) (__width n)
    (__backgroundColorStyle n) v.

(** [constructor(headerState = NO_STATUS, colSpan = 1, width,
    backgroundColorStyle, borderStyle, key)]: the parameters in the order of
    the source; [super(colSpan, key)] stores the column span and assigns the
    key. *)
Definition new_TableCellNode
    (headerState : option Z) (colSpan : option Z) (width : option Z)
    (backgroundColorStyle : option string) (borderStyle : option string)
    (key : option NodeKey) : Update TableCellNode :=
  let* k := setNodeKey key in
  ret {| __colSpan := default 1 colSpan;
         __key := k;
         __headerState := default NO_STATUS headerState;
         __width := width;
         __backgroundColorStyle := backgroundColorStyle;
         __borderStyle := borderStyle |}.

(** [static clone(node)]: five positional arguments, in the order the source
    passes them. *)
Definition clone (node : TableCellNode) : Update TableCellNode :=
  new_TableCellNode
    (Some (__headerState node))
    (Some (__colSpan node))
    (__width node)
    (Some (__key node))
    (__backgroundColorStyle node)
    None.

(** [$createTableCellNode(headerState, colSpan = 1, backgroundColorStyle,
    borderStyle, width)]. *)
Definition createTableCellNode
    (headerState : Z) (colSpan : option Z)
    (backgroundColorStyle : option string) (borderStyle : option string)
    (width : option Z) : Update TableCellNode :=
  let colSpan := default 1 colSpan in
  new_TableCellNode (Some headerState) (Some colSpan) width
    backgroundColorStyle borderStyle None.

(** [getLatest()]: node values are latest snapshots (see the conventions). *)
Definition getLatest (this : TableCellNode) : TableCellNode := this.

(** Modelled from the spec: the host's [getWritable()] is not part of the
    source. "Each mutation creates a new immutable snapshot" under "the same
    stable key": a node that is already mutable in the running transaction is
    returned as it is; otherwise the latest snapshot is copied with the
    class's own [clone], the copy takes over the key and becomes the latest
    snapshot. *)
Definition getWritable (this : TableCellNode) : Update TableCellNode :=
  λ t, let latestNode := getLatest this in
       let key := __key this in
       if decide (key ∈ cloneNotNeeded t) then (latestNode, t)
       else let '(mutableNode, t') := clone latestNode t in
            (set__key key mutableNode,
             mkTransaction ({[key]} ∪ cloneNotNeeded t') (keyCounter t')).

(** Whether [this.getWritable()] returns the receiver object itself, so that
    a write through the returned reference is visible through [this]. *)
Definition writableIsThis (this : TableCellNode) (t : Transaction) : bool :=
  bool_decide (__key this ∈ cloneNotNeeded t).

Definition getHeaderStyles (this : TableCellNode) : Z :=
  __headerState (getLatest this).

Definition getWidth (this : TableCellNode) : option Z :=
  __width (getLatest this).

(** [toggleHeaderStyle(headerStateToToggle)]; [&] is [Z.land]. *)
Definition toggleHeaderStyle (this : TableCellNode) (headerStateToToggle : Z)
    : Update TableCellNode :=
  let* self := getWritable this in
  let self :=
    if Z.land (__headerState self) headerStateToToggle =? headerStateToToggle
    then set__headerState (__headerState self - headerStateToToggle) self
    else set__headerState (__headerState self + headerStateToToggle) self in
  ret self.

Definition hasHeaderState (this : TableCellNode) (headerState : Z) : bool :=
  Z.land (getHeaderStyles this) headerState =? headerState.

Definition hasHeader (this : TableCellNode) : bool :=
  negb (__headerState (getLatest this) =? NO_STATUS).

Definition getTag (this : TableCellNode) : string :=
  if hasHeader this then "th" else "td".

(** ** Snapshots and setters *)

(** [setHeaderStyles(headerState)]: writes through [self], reads the result
    through [this]. *)
Definition setHeaderStyles (this : TableCellNode) (headerState : Z)
    : Update (TableCellNode * Z) :=
  λ t, let aliased := writableIsThis this t in
       let '(self, t') := getWritable this t in
       let self := set__headerState headerState self in
       let this := if aliased then self else this in
       ((self, __headerState this), t').

(** [setWidth(width)]: [self.__width = width; return this.__width]. The
    first component of the result is the writable node after the call, the
    second the value the method returns. *)
Definition setWidth (this : TableCellNode) (width : Z)
    : Update (TableCellNode * option Z) :=
  λ t, let aliased := writableIsThis this t in
       let '(self, t') := getWritable this t in
       let self := set__width (Some width) self in
       let this := if aliased then self else this in
       ((self, __width this), t').

(** [setBg(backgroundColorStyle)]:
    [self.__backgroundColorStyle = backgroundColorStyle;
     return this.backgroundColorStyle]. *)
Definition setBg (this : TableCellNode) (backgroundColorStyle' : string)
    : Update (TableCellNode * option string) :=
  λ t, let aliased := writableIsThis this t in
       let '(self, t') := getWritable this t in
       let self := set__backgroundColorStyle (Some backgroundColorStyle') self in
       let this := if aliased then self else this in
       ((self, backgroundColorStyle this), t').

(** [setBorderStyle(borderStyle)]:
    [self.__borderStyle = borderStyle; return this.borderStyle]. *)
Definition setBorderStyle (this : TableCellNode) (borderStyle' : string)
    : Update (TableCellNode * option string) :=
  λ t, let aliased := writableIsThis this t in
       let '(self, t') := getWritable this t in
       let self := set__borderStyle (Some borderStyle') self in
       let this := if aliased then self else this in
       ((self, borderStyle this), t').

(** [updateDOM(prevNode)]; [!==] on header states and optional widths. *)
Definition updateDOM (this prevNode : TableCellNode) : bool :=
  negb (bool_decide (__headerState prevNode = __headerState this))
  || negb (bool_decide (__width prevNode = __width this)).

(** A node is in a writable snapshot of the transaction when its latest
    object is already the mutable clone. *)
Definition inWritableSnapshot (this : TableCellNode) (t : Transaction) : Prop :=
  __key this ∈ cloneNotNeeded t.

(** ** The document tree *)

(** The node kinds the plugin distinguishes with [$isTableCellNode],
    [$isTableRowNode], [$isElementNode] and [$isLineBreakNode]. Element nodes
    carry their children; the other nodes their text content. *)
#[warnings="-register-all"]
Inductive LexicalNode : Type :=
| Cell (node : TableCellNode) (children : list LexicalNode)
| TableRow (children : list LexicalNode)
| Paragraph (children : list LexicalNode)
| Element (type : string) (children : list LexicalNode)
| LineBreak (textContent : string)
| Leaf (type : string) (textContent : string).

Definition isTableCellNode (node : option LexicalNode) : bool :=
  match node with Some (Cell _ _) => true | _ => false end.

Definition isTableRowNode (node : LexicalNode) : bool :=
  match node with TableRow _ => true | _ => false end.

Definition isElementNode (node : LexicalNode) : bool :=
  match node with
  | Cell _ _ | TableRow _ | Paragraph _ | Element _ _ => true
  | LineBreak _ | Leaf _ _ => false
  end.

Definition isLineBreakNode (node : LexicalNode) : bool :=
  match node with LineBreak _ => true | _ => false end.

Definition getChildren (node : LexicalNode) : list LexicalNode :=
  match node with
  | Cell _ children | TableRow children | Paragraph children
  | Element _ children => children
  | LineBreak _ | Leaf _ _ => []
  end.

Definition getChildrenSize (node : LexicalNode) : Z :=
  Z.of_nat (length (getChildren node)).

Definition getTextContent (node : LexicalNode) : string :=
  match node with
  | LineBreak textContent | Leaf _ textContent => textContent
  | _ => ""
  end.

(** ** Rendering *)

(** The value of an inline style property: a string, or the text
    [`${n}px`] of a number [n], which is an integer (as a rational) or a
    double. *)
Inductive CssValue : Type :=
| CssString (text : string)
| CssPixels (n : Q)
| CssDoublePixels (n : float).

Record HTMLElement := mkHTMLElement {
  tagName : string;
  style : gmap string CssValue;
  classList : list string }.

Definition createElement (tag : string) : HTMLElement :=
  mkHTMLElement tag ∅ [].

(** [element.style[property] = value]. *)
Definition setStyle (property : string) (value : CssValue)
    (element : HTMLElement) : HTMLElement :=
  mkHTMLElement (tagName element) (<[property := value]> (style element))
    (classList element).

(** [`${width}px`] for an optional number. *)
Definition px (width : option Z) : CssValue :=
  match width with
  | Some n => CssPixels (inject_Z n)
  | None => CssString "undefinedpx"
  end.

Record EditorThemeClasses := mkTheme {
  tableCell : option string;
  tableCellHeader : option string }.

Record EditorConfig := mkEditorConfig { theme : EditorThemeClasses }.

(** Modelled from the spec: [addClassNamesToElement] of [@lexical/utils] is
    not part of the source; it "applies theme class names", skipping the
    arguments that are not strings. *)
Definition addClassNamesToElement (element : HTMLElement)
    (classNames : list (option string)) : HTMLElement :=
  mkHTMLElement (tagName element) (style element)
    (classList element ++ omap id classNames).

Definition createDOM (this : TableCellNode) (config : EditorConfig) : HTMLElement :=
  let element := createElement (getTag this) in
  let element :=
    if toBoolean (__width this)
    then setStyle "width" (px (__width this)) element else element in
  let element :=
    if toBoolean (__bg this)
    then setStyle "backgroundColor"
           (CssString (template (__backgroundColorStyle this))) element
    else element in
  let element :=
    if toBoolean (__borderStyle this)
    then setStyle "border" (CssString (template (__borderStyle this))) element
    else element in
  addClassNamesToElement element
    [tableCell (theme config);
     if hasHeader this then tableCellHeader (theme config) else None].

(** The double of an integer; exact for the integers of magnitude below
    2^53, among them every child count. *)
Definition numberOfZ (n : Z) : float :=
  if n <? 0 then PrimFloat.opp (PrimFloat.of_uint63 (Uint63.of_Z (- n)))
  else PrimFloat.of_uint63 (Uint63.of_Z n).

(** [Math.max(a, b)] on doubles. *)
Definition Math_max (a b : float) : float :=
  if PrimFloat.is_nan a || PrimFloat.is_nan b then PrimFloat.nan
  else if PrimFloat.ltb a b then b else a.

(** [a || b] for an optional number [a] and a number [b]. *)
Definition orElse (a : option Z) (b : float) : float :=
  match a with
  | Some n => if toBoolean n then numberOfZ n else b
  | None => b
  end.

(** [exportDOM(editor)]. [element] is what [super.exportDOM(editor)]
    returned and [parent] is the receiver's parent node, if any;
    [getParentOrThrow()] throws without one (the message is the host's).
    The quotient [maxWidth / colCount] and [Math.max] are those of the
    doubles, and the style value is the text [`${n}px`] of the resulting
    double. *)
Definition exportDOM (this : TableCellNode) (element : option HTMLElement)
    (parent : option LexicalNode) : Result (option HTMLElement) :=
  match element with
  | Some element =>
      let maxWidth := numberOfZ 700 in
      match parent with
      | None => Throw "Expected node to have a parent."
      | Some parent =>
          let colCount := numberOfZ (getChildrenSize parent) in
          let element := setStyle "border" (CssString "1px solid black") element in
          let element :=
            setStyle "width"
              (CssDoublePixels
                 (orElse (getWidth this)
                    (Math_max (numberOfZ 90) (PrimFloat.div maxWidth colCount))))
              element in
          let element := setStyle "verticalAlign" (CssString "top") element in
          let element := setStyle "textAlign" (CssString "start") element in
          let element :=
            if hasHeader this
            then setStyle "backgroundColor" (CssString "#f2f3f5") element
            else element in
          Ok (Some element)
      end
  | None => Ok None
  end.

(** Modelled from the spec: the host's reconciliation of a changed node is
    not part of the source. The rendered element of a node is replaced by a
    newly created one when [updateDOM] returns [true] and is kept as it is
    otherwise. *)
Definition reconcile (prevNode nextNode : TableCellNode) (config : EditorConfig)
    (dom : HTMLElement) : HTMLElement :=
  if updateDOM nextNode prevNode then createDOM nextNode config else dom.

(** ** Header state arithmetic *)

Definition validHeaderState (b : Z) : Prop := 0 ≤ b ≤ 3.
Definition headerBit (m : Z) : Prop := m = ROW ∨ m = COLUMN.

(** The arithmetic of the two branches of [toggleHeaderStyle]. *)
Definition toggled (b m : Z) : Z :=
  if Z.land b m =? m then b - m else b + m.

(** ** DOM conversion *)

Record DOMNode := mkDOMNode { nodeName : string }.

(** [String.prototype.toLowerCase] on the letters of a tag name. *)
Definition toLowerAscii (c : ascii) : ascii :=
  let n := nat_of_ascii c in
  if (65 <=? n)%nat && (n <=? 90)%nat then ascii_of_nat (n + 32) else c.

Fixpoint toLowerCase (s : string) : string :=
  match s with
  | EmptyString => EmptyString
  | String c rest => String (toLowerAscii c) (toLowerCase rest)
  end.

Record DOMConversionOutput := mkDOMConversionOutput {
  node : TableCellNode;
  forChild : LexicalNode → option LexicalNode → option LexicalNode }.

Definition createParagraphNode : LexicalNode := Paragraph [].

(** [parent.append(child)] *)
Definition append (parent child : LexicalNode) : LexicalNode :=
  match parent with
  | Cell n children => Cell n (children ++ [child])
  | TableRow children => TableRow (children ++ [child])
  | Paragraph children => Paragraph (children ++ [child])
  | Element type children => Element type (children ++ [child])
  | LineBreak _ | Leaf _ _ => parent
  end.

(** The string ["\n"]. *)
Definition newline : string := String (ascii_of_nat 10) EmptyString.

Definition convertTableCellNodeElement (domNode : DOMNode)
    : Update DOMConversionOutput :=
  let nodeName := toLowerCase (nodeName domNode) in
  let* tableCellNode :=
    createTableCellNode
      (if bool_decide (nodeName = "th") then ROW else NO_STATUS)
      None None None None in
  ret {| node := tableCellNode;
         forChild := λ lexicalNode parentLexicalNode,
           if isTableCellNode parentLexicalNode
              && negb (isElementNode lexicalNode)
           then
             let paragraphNode := createParagraphNode in
             if isLineBreakNode lexicalNode
                && bool_decide (getTextContent lexicalNode = newline)
             then None
             else Some (append paragraphNode lexicalNode)
           else Some lexicalNode |}.

(** Modelled from the spec: the host's import loop is not part of the source.
    The element "maps to a new entity" and each node converted from its child
    content is passed, with that entity as parent, through [forChild]; what
    [forChild] returns becomes a child of the entity, and a child for which
    it returns [null] is dropped. *)
Definition importTableCellElement (domNode : DOMNode)
    (convertedChildren : list LexicalNode) : Update LexicalNode :=
  let* output := convertTableCellNodeElement domNode in
  let parent := Cell (node output) [] in
  ret (Cell (node output)
         (omap (λ child, forChild output child (Some parent)) convertedChildren)).

(** ** The action menu *)

Record GridSelectionShape := mkShape {
  fromX : Z; fromY : Z; toX : Z; toY : Z }.

(** What [$getSelection()] returns: [null], or a selection of one of the
    three kinds; a grid selection carries what [getShape()] returns. *)
Inductive Selection : Type :=
| NoSelection
| RangeSelection
| NodeSelection
| GridSelection (shape : GridSelectionShape).

Definition isGridSelection (selection : Selection) : bool :=
  match selection with GridSelection _ => true | _ => false end.

Record SelectionCounts := mkSelectionCounts { columns : Z; rows : Z }.

(** The grid [$getElementGridForTableNode(editor, tableNode)] returns: an
    opaque host value, named after its table. *)
Inductive Grid : Type := ElementGridOf (tableNode : NodeKey).

(** The operations a menu callback performs on the host, in order. *)
Inductive HostCall : Type :=
| InsertTableRow (tableNode : NodeKey) (targetIndex : Z)
    (shouldInsertAfter : bool) (rowCount : Z) (grid : Grid)
| InsertTableColumn (tableNode : NodeKey) (targetIndex : Z)
    (shouldInsertAfter : bool) (columnCount : Z)
| ClearTableSelection
| OnClose.

(** The state of one [TableActionMenu] instance: the [useState] cells of the
    component, under the names of the source. *)
Record TableActionMenu := mkTableActionMenu {
  tableCellNode : TableCellNode;
  selectionCounts : SelectionCounts;
  cellBackgroundColor : string;
  cellBorderColor : string;
  cellBorderStyle : string;
  cellBorderWidth : string;
  cellBorderTopColor : string;
  cellBorderTopStyle : string;
  cellBorderTopWidth : string;
  cellBorderBottomColor : string;
  cellBorderBottomStyle : string;
  cellBorderBottomWidth : string;
  cellBorderLeftColor : string;
  cellBorderLeftStyle : string;
  cellBorderLeftWidth : string;
  cellBorderRightColor : string;
  cellBorderRightStyle : string;
  cellBorderRightWidth : string;
  cellStyle : string;
  topBorderCellStyle : string;
  bottomBorderCellStyle : string;
  leftBorderCellStyle : string;
  rightBorderCellStyle : string }.

(** The initial values passed to [useState]. *)
Definition initialState (_tableCellNode : TableCellNode) : TableActionMenu :=
  {| tableCellNode := _tableCellNode;
     selectionCounts := mkSelectionCounts 1 1;
     cellBackgroundColor := "white";
     cellBorderColor := "black";
     cellBorderStyle := "solid";
     cellBorderWidth := "1";
     cellBorderTopColor := ""; cellBorderTopStyle := ""; cellBorderTopWidth := "";
     cellBorderBottomColor := ""; cellBorderBottomStyle := "";
     cellBorderBottomWidth := "";
     cellBorderLeftColor := ""; cellBorderLeftStyle := ""; cellBorderLeftWidth := "";
     cellBorderRightColor := ""; cellBorderRightStyle := "";
     cellBorderRightWidth := "";
     cellStyle := "";
     topBorderCellStyle := "";
     bottomBorderCellStyle := "";
     leftBorderCellStyle := "";
     rightBorderCellStyle := "" |}.

(** The state setters of [useState] that the modelled effects and inputs
    call; each replaces one cell of the state. *)
Definition updateSelectionCounts (value : SelectionCounts) (s : TableActionMenu) : TableActionMenu :=
  mkTableActionMenu
    (tableCellNode s) value
    (cellBackgroundColor s) (cellBorderColor s)
    (cellBorderStyle s) (cellBorderWidth s)
    (cellBorderTopColor s) (cellBorderTopStyle s) (cellBorderTopWidth s)
    (cellBorderBottomColor s) (cellBorderBottomStyle s) (cellBorderBottomWidth s)
    (cellBorderLeftColor s) (cellBorderLeftStyle s) (cellBorderLeftWidth s)
    (cellBorderRightColor s) (cellBorderRightStyle s) (cellBorderRightWidth s)
    (cellStyle s) (topBorderCellStyle s)
    (bottomBorderCellStyle s) (leftBorderCellStyle s)
    (rightBorderCellStyle s).

Definition setCellBorderTopColor (value : string) (s : TableActionMenu) : TableActionMenu :=
  mkTableActionMenu
    (tableCellNode s) (selectionCounts s)
    (cellBackgroundColor s) (cellBorderColor s)
    (cellBorderStyle s) (cellBorderWidth s)
    value (cellBorderTopStyle s) (cellBorderTopWidth s)
    (cellBorderBottomColor s) (cellBorderBottomStyle s) (cellBorderBottomWidth s)
    (cellBorderLeftColor s) (cellBorderLeftStyle s) (cellBorderLeftWidth s)
    (cellBorderRightColor s) (cellBorderRightStyle s) (cellBorderRightWidth s)
    (cellStyle s) (topBorderCellStyle s)
    (bottomBorderCellStyle s) (leftBorderCellStyle s)
    (rightBorderCellStyle s).

Definition setCellBorderTopStyle (value : string) (s : TableActionMenu) : TableActionMenu :=
  mkTableActionMenu
    (tableCellNode s) (selectionCounts s)
    (cellBackgroundColor s) (cellBorderColor s)
    (cellBorderStyle s) (cellBorderWidth s)
    (cellBorderTopColor s) value (cellBorderTopWidth s)
    (cellBorderBottomColor s) (cellBorderBottomStyle s) (cellBorderBottomWidth s)
    (cellBorderLeftColor s) (cellBorderLeftStyle s) (cellBorderLeftWidth s)
    (cellBorderRightColor s) (cellBorderRightStyle s) (cellBorderRightWidth s)
    (cellStyle s) (topBorderCellStyle s)
    (bottomBorderCellStyle s) (leftBorderCellStyle s)
    (rightBorderCellStyle s).

Definition setCellBorderTopWidth (value : string) (s : TableActionMenu) : TableActionMenu :=
  mkTableActionMenu
    (tableCellNode s) (selectionCounts s)
    (cellBackgroundColor s) (cellBorderColor s)
    (cellBorderStyle s) (cellBorderWidth s)
    (cellBorderTopColor s) (cellBorderTopStyle s) value
    (cellBorderBottomColor s) (cellBorderBottomStyle s) (cellBorderBottomWidth s)
    (cellBorderLeftColor s) (cellBorderLeftStyle s) (cellBorderLeftWidth s)
    (cellBorderRightColor s) (cellBorderRightStyle s) (cellBorderRightWidth s)
    (cellStyle s) (topBorderCellStyle s)
    (bottomBorderCellStyle s) (leftBorderCellStyle s)
    (rightBorderCellStyle s).

Definition setCellStyle (value : string) (s : TableActionMenu) : TableActionMenu :=
  mkTableActionMenu
    (tableCellNode s) (selectionCounts s)
    (cellBackgroundColor s) (cellBorderColor s)
    (cellBorderStyle s) (cellBorderWidth s)
    (cellBorderTopColor s) (cellBorderTopStyle s) (cellBorderTopWidth s)
    (cellBorderBottomColor s) (cellBorderBottomStyle s) (cellBorderBottomWidth s)
    (cellBorderLeftColor s) (cellBorderLeftStyle s) (cellBorderLeftWidth s)
    (cellBorderRightColor s) (cellBorderRightStyle s) (cellBorderRightWidth s)
    value (topBorderCellStyle s)
    (bottomBorderCellStyle s) (leftBorderCellStyle s)
    (rightBorderCellStyle s).

Definition setTopBorderCellStyle (value : string) (s : TableActionMenu) : TableActionMenu :=
  mkTableActionMenu
    (tableCellNode s) (selectionCounts s)
    (cellBackgroundColor s) (cellBorderColor s)
    (cellBorderStyle s) (cellBorderWidth s)
    (cellBorderTopColor s) (cellBorderTopStyle s) (cellBorderTopWidth s)
    (cellBorderBottomColor s) (cellBorderBottomStyle s) (cellBorderBottomWidth s)
    (cellBorderLeftColor s) (cellBorderLeftStyle s) (cellBorderLeftWidth s)
    (cellBorderRightColor s) (cellBorderRightStyle s) (cellBorderRightWidth s)
    (cellStyle s) value
    (bottomBorderCellStyle s) (leftBorderCellStyle s)
    (rightBorderCellStyle s).

Definition setBottomBorderCellStyle (value : string) (s : TableActionMenu) : TableActionMenu :=
  mkTableActionMenu
    (tableCellNode s) (selectionCounts s)
    (cellBackgroundColor s) (cellBorderColor s)
    (cellBorderStyle s) (cellBorderWidth s)
    (cellBorderTopColor s) (cellBorderTopStyle s) (cellBorderTopWidth s)
    (cellBorderBottomColor s) (cellBorderBottomStyle s) (cellBorderBottomWidth s)
    (cellBorderLeftColor s) (cellBorderLeftStyle s) (cellBorderLeftWidth s)
    (cellBorderRightColor s) (cellBorderRightStyle s) (cellBorderRightWidth s)
    (cellStyle s) (topBorderCellStyle s)
    value (leftBorderCellStyle s)
    (rightBorderCellStyle s).

Definition setRightBorderCellStyle (value : string) (s : TableActionMenu) : TableActionMenu :=
  mkTableActionMenu
    (tableCellNode s) (selectionCounts s)
    (cellBackgroundColor s) (cellBorderColor s)
    (cellBorderStyle s) (cellBorderWidth s)
    (cellBorderTopColor s) (cellBorderTopStyle s) (cellBorderTopWidth s)
    (cellBorderBottomColor s) (cellBorderBottomStyle s) (cellBorderBottomWidth s)
    (cellBorderLeftColor s) (cellBorderLeftStyle s) (cellBorderLeftWidth s)
    (cellBorderRightColor s) (cellBorderRightStyle s) (cellBorderRightWidth s)
    (cellStyle s) (topBorderCellStyle s)
    (bottomBorderCellStyle s) (leftBorderCellStyle s)
    value.

Definition setLeftBorderCellStyle (value : string) (s : TableActionMenu) : TableActionMenu :=
  mkTableActionMenu
    (tableCellNode s) (selectionCounts s)
    (cellBackgroundColor s) (cellBorderColor s)
    (cellBorderStyle s) (cellBorderWidth s)
    (cellBorderTopColor s) (cellBorderTopStyle s) (cellBorderTopWidth s)
    (cellBorderBottomColor s) (cellBorderBottomStyle s) (cellBorderBottomWidth s)
    (cellBorderLeftColor s) (cellBorderLeftStyle s) (cellBorderLeftWidth s)
    (cellBorderRightColor s) (cellBorderRightStyle s) (cellBorderRightWidth s)
    (cellStyle s) (topBorderCellStyle s)
    (bottomBorderCellStyle s) value
    (rightBorderCellStyle s).

(** The template literal [`${width}px ${style} ${color}`]. *)
Definition borderShorthand (width style color : string) : string :=
  width ++ "px " ++ style ++ " " ++ color.

(** The effect with dependency list [[editor]]: it runs once, when the menu
    is mounted, on the selection of that moment. *)
Definition selectionCountsEffect (selection : Selection) (s : TableActionMenu)
    : TableActionMenu :=
  match selection with
  | GridSelection selectionShape =>
      updateSelectionCounts
        {| columns := toX selectionShape - fromX selectionShape + 1;
           rows := toY selectionShape - fromY selectionShape + 1 |} s
  | _ => s
  end.

(** The five effects that compose the style strings from the draft fields;
    they run after the first render and after every change of a draft. *)
Definition styleEffects (s : TableActionMenu) : TableActionMenu :=
  let s' := setCellStyle
    (borderShorthand (cellBorderWidth s) (cellBorderStyle s) (cellBorderColor s)) s in
  let s' := setTopBorderCellStyle
    (borderShorthand (cellBorderTopWidth s) (cellBorderTopStyle s)
       (cellBorderTopColor s)) s' in
  let s' := setBottomBorderCellStyle
    (borderShorthand (cellBorderBottomWidth s) (cellBorderBottomStyle s)
       (cellBorderBottomColor s)) s' in
  let s' := setRightBorderCellStyle
    (borderShorthand (cellBorderRightWidth s) (cellBorderRightStyle s)
       (cellBorderRightColor s)) s' in
  let s' := setLeftBorderCellStyle
    (borderShorthand (cellBorderLeftWidth s) (cellBorderLeftStyle s)
       (cellBorderLeftColor s)) s' in
  s'.

(** Opening the menu: the component is mounted on the anchor cell and its
    effects run. *)
Definition openMenu (selection : Selection) (_tableCellNode : TableCellNode)
    : TableActionMenu :=
  styleEffects (selectionCountsEffect selection (initialState _tableCellNode)).

(** An input of the styling form changes one draft cell; the component
    renders again and the style effects run. *)
Definition onChange (setDraft : string → TableActionMenu → TableActionMenu)
    (value : string) (s : TableActionMenu) : TableActionMenu :=
  styleEffects (setDraft value s).

(** The host operations a callback reads inside [editor.update], with the
    answers they give while it runs. The helpers that are named [OrThrow] are
    taken to return. *)
Record Host := mkHost {
  getSelection : Selection;
  getTableNodeFromLexicalNodeOrThrow : TableCellNode → NodeKey;
  getTableRowIndexFromTableCellNode : TableCellNode → Z;
  getTableColumnIndexFromTableCellNode : TableCellNode → Z }.

Definition insertTableRowAtSelection (s : TableActionMenu) (host : Host)
    (shouldInsertAfter : bool) : list HostCall :=
  let selection := getSelection host in
  let tableNode := getTableNodeFromLexicalNodeOrThrow host (tableCellNode s) in
  let tableRowIndex :=
    match selection with
    | GridSelection selectionShape =>
        if shouldInsertAfter then toY selectionShape else fromY selectionShape
    | _ => getTableRowIndexFromTableCellNode host (tableCellNode s)
    end in
  let grid := ElementGridOf tableNode in
  [InsertTableRow tableNode tableRowIndex shouldInsertAfter
     (rows (selectionCounts s)) grid;
   ClearTableSelection;
   OnClose].

Definition insertTableColumnAtSelection (s : TableActionMenu) (host : Host)
    (shouldInsertAfter : bool) : list HostCall :=
  let selection := getSelection host in
  let tableNode := getTableNodeFromLexicalNodeOrThrow host (tableCellNode s) in
  let tableColumnIndex :=
    match selection with
    | GridSelection selectionShape =>
        if shouldInsertAfter then toX selectionShape else fromX selectionShape
    | _ => getTableColumnIndexFromTableCellNode host (tableCellNode s)
    end in
  [InsertTableColumn tableNode tableColumnIndex shouldInsertAfter
     (columns (selectionCounts s));
   ClearTableSelection;
   OnClose].

(** [styleCellOptions(cellStyle, cellBackgroundColor, topBorderCellStyle,
    bottomBorderCellStyle, rightBorderCellStyle, leftBorderCellStyle)];
    [elemKey] is the rendered element [editor.getElementByKey] returns for
    the anchor cell. An assignment to [elemKey.style] is recorded as made. *)
Definition styleCellOptions
    (cellStyle cellBackgroundColor topBorderCellStyle bottomBorderCellStyle
       rightBorderCellStyle leftBorderCellStyle : string)
    (elemKey : HTMLElement) : HTMLElement * list HostCall :=
  let elemKey :=
    if toBoolean topBorderCellStyle
    then setStyle "borderRadius" (CssString "10px")
           (setStyle "borderTop" (CssString topBorderCellStyle) elemKey)
    else elemKey in
  let elemKey :=
    if toBoolean bottomBorderCellStyle
    then setStyle "borderBottom" (CssString bottomBorderCellStyle) elemKey
    else elemKey in
  let elemKey :=
    if toBoolean rightBorderCellStyle
    then setStyle "borderRight" (CssString rightBorderCellStyle) elemKey
    else elemKey in
  let elemKey :=
    if toBoolean leftBorderCellStyle
    then setStyle "borderLeft" (CssString leftBorderCellStyle) elemKey
    else elemKey in
  (elemKey, [ClearTableSelection; OnClose]).


(** The loop of [toggleTableColumnIsHeader] over [tableRows], from row [r]
    on; the rows are returned with the toggled cells in place. *)
Fixpoint toggleColumnCells (tableColumnIndex : Z) (tableRows : list LexicalNode)
    : Update (Result (list LexicalNode)) :=
  match tableRows with
  | [] => ret (Ok [])
  | tableRow :: rest =>
      if negb (isTableRowNode tableRow) then ret (Throw "Expected table row")
      else
        let tableCells := getChildren tableRow in
        if (tableColumnIndex >=? Z.of_nat (length tableCells))
           || (tableColumnIndex <? 0)
        then ret (Throw "Expected table cell to be inside of table row.")
        else
          match tableCells !! Z.to_nat tableColumnIndex with
          | Some (Cell tableCell children) =>
              let* self := toggleHeaderStyle tableCell COLUMN in
              let* others := toggleColumnCells tableColumnIndex rest in
              ret (match others with
                   | Ok rest' =>
                       Ok (TableRow (<[Z.to_nat tableColumnIndex :=
                                       Cell self children]> tableCells) :: rest')
                   | Throw message => Throw message
                   end)
          | _ => ret (Throw "Expected table cell")
          end
  end.

(** [toggleTableColumnIsHeader]: [tableRows] are the children of the anchor
    cell's table. *)
Definition toggleTableColumnIsHeader (s : TableActionMenu) (host : Host)
    (tableRows : list LexicalNode)
    : Update (Result (list LexicalNode * list HostCall)) :=
  let tableColumnIndex :=
    getTableColumnIndexFromTableCellNode host (tableCellNode s) in
  let* toggledRows := toggleColumnCells tableColumnIndex tableRows in
  ret (match toggledRows with
       | Ok tableRows' => Ok (tableRows', [ClearTableSelection; OnClose])
       | Throw message => Throw message
       end).

(** ** Vocabulary of the statements *)

(** The table cell at index [tableColumnIndex] of a node's children, with its
    own children; [None] when the index is out of the bounds of the children
    or the child there is not a table cell. *)
Definition cellAt (tableColumnIndex : Z) (tableRow : LexicalNode)
    : option (TableCellNode * list LexicalNode) :=
  if tableColumnIndex <? 0 then None
  else match getChildren tableRow !! Z.to_nat tableColumnIndex with
       | Some (Cell tableCell children) => Some (tableCell, children)
       | _ => None
       end.

(** [tableRow'] is the table row [tableRow] with the header state of the cell
    at [tableColumnIndex] toggled by COLUMN and its other children as they
    were. *)
Definition columnToggled (tableColumnIndex : Z) (tableRow tableRow' : LexicalNode)
    : Prop :=
  ∃ tableCell children self,
    isTableRowNode tableRow = true
    ∧ cellAt tableColumnIndex tableRow = Some (tableCell, children)
    ∧ tableRow' = TableRow (<[Z.to_nat tableColumnIndex := Cell self children]>
                              (getChildren tableRow))
    ∧ __headerState self = toggled (__headerState tableCell) COLUMN
    ∧ __key self = __key tableCell.

(** ** Further callbacks of the action menu *)

(** The [forEach] of [toggleTableRowIsHeader] over the cells of the anchor's
    row; the cells are returned with their header state toggled. *)
Fixpoint toggleRowCells (tableCells : list LexicalNode)
    : Update (Result (list LexicalNode)) :=
  match tableCells with
  | [] => ret (Ok [])
  | tableCell :: rest =>
      match tableCell with
      | Cell cellNode children =>
          let* self := toggleHeaderStyle cellNode ROW in
          let* others := toggleRowCells rest in
          ret (match others with
               | Ok rest' => Ok (Cell self children :: rest')
               | Throw message => Throw message
               end)
      | _ => ret (Throw "Expected table cell")
      end
  end.

(** [toggleTableRowIsHeader]: [tableRows] are the children of the anchor
    cell's table. *)
Definition toggleTableRowIsHeader (s : TableActionMenu) (host : Host)
    (tableRows : list LexicalNode)
    : Update (Result (list LexicalNode * list HostCall)) :=
  let tableRowIndex :=
    getTableRowIndexFromTableCellNode host (tableCellNode s) in
  if (tableRowIndex >=? Z.of_nat (length tableRows)) || (tableRowIndex <? 0)
  then ret (Throw "Expected table cell to be inside of table row.")
  else
    match tableRows !! Z.to_nat tableRowIndex with
    | Some tableRow =>
        if negb (isTableRowNode tableRow) then ret (Throw "Expected table row")
        else
          let* toggledCells := toggleRowCells (getChildren tableRow) in
          ret (match toggledCells with
               | Ok tableCells' =>
                   Ok (<[Z.to_nat tableRowIndex := TableRow tableCells']> tableRows,
                       [ClearTableSelection; OnClose])
               | Throw message => Throw message
               end)
    | None => ret (Throw "Expected table row")
    end.

(** The removals the delete callbacks ask of the host. *)
Inductive TableRemoval : Type :=
| RemoveTableRowAtIndex (tableNode : NodeKey) (indexToDelete : Z)
| DeleteTableColumn (tableNode : NodeKey) (targetIndex : Z)
| RemoveTable (tableNode : NodeKey).

(** What a delete callback does, in order: a removal, or one of the
    operations of [HostCall]. *)
Inductive MenuCall : Type :=
| Removal (removal : TableRemoval)
| Call (call : HostCall).

Definition deleteTableRowAtSelection (s : TableActionMenu) (host : Host)
    : list MenuCall :=
  let tableNode := getTableNodeFromLexicalNodeOrThrow host (tableCellNode s) in
  let tableRowIndex :=
    getTableRowIndexFromTableCellNode host (tableCellNode s) in
  [Removal (RemoveTableRowAtIndex tableNode tableRowIndex);
   Call ClearTableSelection; Call OnClose].

Definition deleteTableAtSelection (s : TableActionMenu) (host : Host)
    : list MenuCall :=
  let tableNode := getTableNodeFromLexicalNodeOrThrow host (tableCellNode s) in
  [Removal (RemoveTable tableNode); Call ClearTableSelection; Call OnClose].

Definition deleteTableColumnAtSelection (s : TableActionMenu) (host : Host)
    : list MenuCall :=
  let tableNode := getTableNodeFromLexicalNodeOrThrow host (tableCellNode s) in
  let tableColumnIndex :=
    getTableColumnIndexFromTableCellNode host (tableCellNode s) in
  [Removal (DeleteTableColumn tableNode tableColumnIndex);
   Call ClearTableSelection; Call OnClose].




(** ** Placement of the menu button and of the dropdown *)

Module DOMRect.
Record t := mk { left : Z; top : Z; width : Z; height : Z }.
End DOMRect.

Record Window := mkWindow { pageXOffset : Z; pageYOffset : Z }.

(** The layout effect of [TableActionMenu]. [menuButtonRect] is the bounding
    rectangle of [contextRef.current], [None] when that is [null]. *)
Definition positionDropDown (window : Window)
    (menuButtonRect : option DOMRect.t) (dropDownElement : option HTMLElement)
    : option HTMLElement :=
  match menuButtonRect, dropDownElement with
  | Some menuButtonRect, Some dropDownElement =>
      let dropDownElement := setStyle "opacity" (CssString "1") dropDownElement in
      let dropDownElement :=
        setStyle "left"
          (px (Some (DOMRect.left menuButtonRect + DOMRect.width menuButtonRect
                     + pageXOffset window + 5)))
          dropDownElement in
      let dropDownElement :=
        setStyle "top"
          (px (Some (DOMRect.top menuButtonRect + pageYOffset window)))
          dropDownElement in
      Some dropDownElement
  | _, _ => dropDownElement
  end.

(** The layout effect of [TableCellActionMenuContainer]. [menuButtonDOM] is
    [menuButtonRef.current] with its bounding rectangle, and
    [getElementByKey] gives the bounding rectangle of the element rendered
    for a key, if there is one. *)
Definition positionMenuButton (window : Window)
    (menuButtonDOM : option (HTMLElement * DOMRect.t))
    (tableCellNode : option TableCellNode)
    (getElementByKey : NodeKey → option DOMRect.t) : option HTMLElement :=
  match menuButtonDOM, tableCellNode with
  | Some (menuButtonDOM, menuRect), Some tableCellNode =>
      match getElementByKey (__key tableCellNode) with
      | Some tableCellRect =>
          let menuButtonDOM := setStyle "opacity" (CssString "1") menuButtonDOM in
          let menuButtonDOM :=
            setStyle "left"
              (px (Some (DOMRect.left tableCellRect + pageXOffset window
                         - DOMRect.width menuRect + DOMRect.width tableCellRect
                         - 10)))
              menuButtonDOM in
          let menuButtonDOM :=
            setStyle "top"
              (px (Some (DOMRect.top tableCellRect + pageYOffset window + 5)))
              menuButtonDOM in
          Some menuButtonDOM
      | None => Some (setStyle "opacity" (CssString "0") menuButtonDOM)
      end
  | Some (menuButtonDOM, _), None => Some menuButtonDOM
  | None, _ => None
  end.

Definition isRangeSelection (selection : Selection) : bool :=
  match selection with RangeSelection => true | _ => false end.

(** [selection == null] *)
Definition isNullSelection (selection : Selection) : bool :=
  match selection with NoSelection => true | _ => false end.

(** [moveMenu]. [menu] tells whether [menuButtonRef.current] is set,
    [rootContainsAnchor] is [None] without a root element and otherwise what
    [rootElement.contains(nativeSelection.anchorNode)] answers,
    [tableCellNodeFromSelection] is what [$getTableCellNodeFromLexicalNode]
    finds from the anchor of the selection, [rendered] tells whether
    [editor.getElementByKey] finds an element, and [activeElement] whether
    the document has one. The result is the argument of the call of
    [setTableMenuCellNode], [None] when [moveMenu] makes no such call. *)
Definition moveMenu (menu : bool) (selection : Selection)
    (rootContainsAnchor : option bool)
    (tableCellNodeFromSelection : option TableCellNode)
    (rendered : NodeKey → bool) (activeElement : bool)
    : option (option TableCellNode) :=
  if isNullSelection selection || negb menu then Some None
  else if isRangeSelection selection && default false rootContainsAnchor
  then match tableCellNodeFromSelection with
       | None => Some None
       | Some tableCellNodeFromSelection =>
           if negb (rendered (__key tableCellNodeFromSelection)) then Some None
           else Some (Some tableCellNodeFromSelection)
       end
  else if negb activeElement then Some None
  else None.

(** The state [moveMenu] leaves in [tableCellNode], given the previous one. *)
Definition afterMoveMenu (previous : option TableCellNode)
    (call : option (option TableCellNode)) : option TableCellNode :=
  default previous call.

(** The converted children that [forChild] drops below a table cell: the
    line breaks whose text content is ["\n"]. *)
Definition isDroppedLineBreak (lexicalNode : LexicalNode) : bool :=
  isLineBreakNode lexicalNode
  && bool_decide (getTextContent lexicalNode = newline).

(** [tableCell'] is the table cell [tableCell] with the same key and
    children and with the header state [f] makes of its header state. *)
Definition headerStateMapped (f : Z → Z) (tableCell tableCell' : LexicalNode)
    : Prop :=
  ∃ cellNode children self,
    tableCell = Cell cellNode children
    ∧ tableCell' = Cell self children
    ∧ __headerState self = f (__headerState cellNode)
    ∧ __key self = __key cellNode.


(** ** Style assignments as the DOM takes them *)





(** A header state or mask on which the operations of [toggleHeaderStyle]
    are exact in JavaScript: a non-negative integer below 2^31, which the
    32-bit [&] reads as it is and whose sums and differences are exact
    doubles. *)
Definition exactHeaderNumber (n : Z) : Prop := 0 ≤ n < 2 ^ 31.

(** * Properties *)

Section HeaderState.

Lemma toggled_lxor b m :
  validHeaderState b → headerBit m → toggled b m = Z.lxor b m.
Proof.
  intros Hb [-> | ->]; unfold toggled, validHeaderState, ROW, COLUMN in *;
    assert (b = 0 ∨ b = 1 ∨ b = 2 ∨ b = 3) as Hcases by lia;
    destruct Hcases as [-> | [-> | [-> | ->]]]; reflexivity.
Qed.

Lemma lxor_valid b m :
  validHeaderState b → headerBit m → validHeaderState (Z.lxor b m).
Proof.
  intros Hb [-> | ->]; unfold validHeaderState, ROW, COLUMN in *;
    assert (b = 0 ∨ b = 1 ∨ b = 2 ∨ b = 3) as Hcases by lia;
    destruct Hcases as [-> | [-> | [-> | ->]]];
    split; apply Z.leb_le; reflexivity.
Qed.

Lemma getWritable_headerState this t :
  __headerState (getWritable this t).1 = __headerState this.
Proof.
  unfold getWritable. case_decide; [reflexivity |].
  unfold clone, new_TableCellNode, bind, setNodeKey, ret. reflexivity.
Qed.

Lemma getWritable_key this t :
  __key (getWritable this t).1 = __key this.
Proof.
  unfold getWritable. case_decide; [reflexivity |].
  unfold clone, new_TableCellNode, bind, setNodeKey, ret. reflexivity.
Qed.

Lemma getWritable_marks this t :
  __key this ∈ cloneNotNeeded (getWritable this t).2.
Proof.
  unfold getWritable. case_decide; [assumption |].
  unfold clone, new_TableCellNode, bind, setNodeKey, ret. cbn. set_solver.
Qed.

Lemma toggleHeaderStyle_headerState this m t :
  __headerState (toggleHeaderStyle this m t).1
  = toggled (__headerState this) m.
Proof.
  unfold toggleHeaderStyle, bind, ret, toggled.
  pose proof (getWritable_headerState this t) as Hhs.
  destruct (getWritable this t) as [self t']. cbn in *.
  rewrite Hhs. destruct (Z.land (__headerState this) m =? m); reflexivity.
Qed.

Lemma toggleHeaderStyle_key this m t :
  __key (toggleHeaderStyle this m t).1 = __key this.
Proof.
  unfold toggleHeaderStyle, bind, ret.
  pose proof (getWritable_key this t) as Hk.
  destruct (getWritable this t) as [self t']. cbn in *.
  destruct (Z.land (__headerState self) m =? m); exact Hk.
Qed.

(** C1. For a header state [b] of 0..3 and a bit [m] that is ROW or COLUMN,
    [toggleHeaderStyle(m)] leaves a node whose header state is [b XOR m]:
    bit [m] is flipped, every other bit is as before, and the value is
    again one of 0..3. A second [toggleHeaderStyle(m)], on the node the
    first one returned, restores [b]. *)
Theorem toggleHeaderStyle_flips_bit (this : TableCellNode) (m : Z) (t : Transaction) :
  validHeaderState (__headerState this) →
  headerBit m →
  let b := __headerState this in
  let '(self, t1) := toggleHeaderStyle this m t in
  let '(self2, _) := toggleHeaderStyle self m t1 in
  __headerState self = Z.lxor b m
  ∧ validHeaderState (__headerState self)
  ∧ (∀ i, Z.testbit (__headerState self) i
          = xorb (Z.testbit b i) (Z.testbit m i))
  ∧ __headerState self2 = b.
Proof.
  intros Hb Hm b.
  pose proof (toggleHeaderStyle_headerState this m t) as H1.
  destruct (toggleHeaderStyle this m t) as [self t1]. cbn in H1.
  pose proof (toggleHeaderStyle_headerState self m t1) as H2.
  destruct (toggleHeaderStyle self m t1) as [self2 t2]. cbn in H2.
  rewrite toggled_lxor in H1 by assumption.
  assert (validHeaderState (__headerState self)) as Hv
    by (rewrite H1; apply lxor_valid; assumption).
  rewrite toggled_lxor in H2 by assumption.
  repeat split.
  - exact H1.
  - apply Hv.
  - apply Hv.
  - intros i. rewrite H1. apply Z.lxor_spec.
  - rewrite H2, H1, Z.lxor_assoc, Z.lxor_nilpotent, Z.lxor_0_r. reflexivity.
Qed.

Lemma toggleHeaderStyle_flips_bit_witness :
  let this := mkTableCellNode 1 "4" BOTH (Some 120) (Some "red") None in
  let t := mkTransaction ∅ 9 in
  validHeaderState (__headerState this)
  ∧ headerBit COLUMN
  ∧ let '(self, t1) := toggleHeaderStyle this COLUMN t in
    let '(self2, _) := toggleHeaderStyle self COLUMN t1 in
    __headerState self = Z.lxor BOTH COLUMN
    ∧ validHeaderState (__headerState self)
    ∧ (∀ i, Z.testbit (__headerState self) i
            = xorb (Z.testbit BOTH i) (Z.testbit COLUMN i))
    ∧ __headerState self2 = BOTH.
Proof.
  assert (validHeaderState BOTH) as Hb by (unfold validHeaderState, BOTH; lia).
  assert (headerBit COLUMN) as Hm by (right; reflexivity).
  split; [exact Hb | split; [exact Hm |]].
  exact (toggleHeaderStyle_flips_bit
           (mkTableCellNode 1 "4" BOTH (Some 120) (Some "red") None)
           COLUMN (mkTransaction ∅ 9) Hb Hm).
Defined.

End HeaderState.

Section Snapshots.

Lemma getWritable_writable this t :
  inWritableSnapshot this t → getWritable this t = (this, t).
Proof.
  intros Hw. unfold getWritable, getLatest. case_decide; [reflexivity | contradiction].
Qed.

Lemma clone_fields node t :
  let copy := (clone node t).1 in
  __headerState copy = __headerState node
  ∧ __colSpan copy = __colSpan node
  ∧ __width copy = __width node
  ∧ __backgroundColorStyle copy = Some (__key node)
  ∧ __borderStyle copy = __backgroundColorStyle node
  ∧ __key copy = pretty (keyCounter t).
Proof. cbn. repeat split. Qed.

(** C2 (the code departs from the claim). [clone] keeps [headerState],
    [colSpan] and [width], but its fourth and fifth arguments land in the
    constructor's [backgroundColorStyle] and [borderStyle] parameters and
    no sixth argument is passed: the copy's background colour is the
    original's key, its border style is the original's background colour,
    and its key is a new one drawn from the transaction. *)
Theorem clone_shifts_arguments :
  let node := mkTableCellNode 1 "7" ROW (Some 120) (Some "red") (Some "1px solid black") in
  let t := mkTransaction ∅ 12 in
  let copy := (clone node t).1 in
  copy = mkTableCellNode 1 "12" ROW (Some 120) (Some "7") (Some "red")
  ∧ __key copy ≠ __key node
  ∧ __backgroundColorStyle copy ≠ __backgroundColorStyle node
  ∧ (∀ node' t', __backgroundColorStyle (clone node' t').1 = Some (__key node')
                 ∧ __key (clone node' t').1 = pretty (keyCounter t')).
Proof.
  cbn. split; [reflexivity |]. split; [discriminate |]. split; [discriminate |].
  intros node' t'. split; reflexivity.
Qed.

(** C7 (the code departs from the claim). On a node in a writable snapshot
    each setter stores its argument in the field; [setWidth] returns the
    stored width, while [setBg] and [setBorderStyle] return [undefined],
    because they read [this.backgroundColorStyle] and [this.borderStyle],
    properties the class never assigns. *)
Theorem setters_store_but_two_return_undefined (this : TableCellNode) (t : Transaction)
    (width : Z) (bg border : string) :
  inWritableSnapshot this t →
  (setWidth this width t).1 = (set__width (Some width) this, Some width)
  ∧ (setBg this bg t).1 = (set__backgroundColorStyle (Some bg) this, None)
  ∧ (setBorderStyle this border t).1 = (set__borderStyle (Some border) this, None).
Proof.
  intros Hw.
  unfold setWidth, setBg, setBorderStyle, writableIsThis.
  rewrite (getWritable_writable _ _ Hw).
  rewrite bool_decide_eq_true_2 by exact Hw.
  repeat split.
Qed.

Lemma setters_store_but_two_return_undefined_witness :
  let this := mkTableCellNode 1 "7" ROW None None None in
  let t := mkTransaction {[ "7" ]} 12 in
  inWritableSnapshot this t
  ∧ (setWidth this 120 t).1 = (set__width (Some 120) this, Some 120)
  ∧ (setBg this "red" t).1 = (set__backgroundColorStyle (Some "red") this, None)
  ∧ (setBorderStyle this "2px solid red" t).1
    = (set__borderStyle (Some "2px solid red") this, None).
Proof.
  assert (inWritableSnapshot (mkTableCellNode 1 "7" ROW None None None)
            (mkTransaction {[ "7" ]} 12)) as Hw
    by (unfold inWritableSnapshot; cbn; set_solver).
  split; [exact Hw |].
  exact (setters_store_but_two_return_undefined
           (mkTableCellNode 1 "7" ROW None None None)
           (mkTransaction {[ "7" ]} 12) 120 "red" "2px solid red" Hw).
Defined.

(** Outside a writable snapshot [getWritable] hands out a copy, and then
    even [setWidth] returns the receiver's previous width. *)
Lemma setWidth_returns_old_width this t width :
  ¬ inWritableSnapshot this t →
  (setWidth this width t).1.2 = __width this.
Proof.
  intros Hw. unfold setWidth, writableIsThis.
  rewrite bool_decide_eq_false_2 by exact Hw.
  destruct (getWritable this t). reflexivity.
Qed.

End Snapshots.

Section Rendering.

Variable config : EditorConfig.

Lemma hasHeader_iff this :
  hasHeader this = true ↔ __headerState this ≠ NO_STATUS.
Proof.
  unfold hasHeader, getLatest. rewrite negb_true_iff, Z.eqb_neq. reflexivity.
Qed.

Lemma createDOM_tagName this :
  tagName (createDOM this config) = if hasHeader this then "th" else "td".
Proof.
  unfold createDOM, getTag.
  destruct (toBoolean (__width this)), (toBoolean (__borderStyle this));
    reflexivity.
Qed.

Lemma createDOM_width this :
  toBoolean (__width this) = true →
  style (createDOM this config) !! "width" = Some (px (__width this)).
Proof.
  intros Hw. unfold createDOM. rewrite Hw.
  destruct (toBoolean (__borderStyle this)); reflexivity.
Qed.

Lemma createDOM_border this :
  toBoolean (__borderStyle this) = true →
  style (createDOM this config) !! "border"
  = Some (CssString (template (__borderStyle this))).
Proof.
  intros Hb. unfold createDOM. rewrite Hb.
  destruct (toBoolean (__width this)); reflexivity.
Qed.

Lemma createDOM_backgroundColor this :
  style (createDOM this config) !! "backgroundColor" = None.
Proof.
  unfold createDOM.
  destruct (toBoolean (__width this)), (toBoolean (__borderStyle this));
    reflexivity.
Qed.

(** C4 (the code departs from the claim). [createDOM] makes a [th] element
    for a node with a header and a [td] element otherwise, [hasHeader()]
    holds exactly for the header states other than NO_STATUS, and a width
    and a border style that are set reach the element. The background
    colour never does: the guard reads [this.__bg], which is never
    assigned, so a node with [__backgroundColorStyle = "red"] is rendered
    without a [backgroundColor]. *)
Theorem createDOM_ignores_background :
  let this := mkTableCellNode 1 "7" ROW (Some 120) (Some "red") (Some "2px solid red") in
  createDOM this config
  = mkHTMLElement "th"
      (<["border" := CssString "2px solid red"]>
         (<["width" := CssPixels (inject_Z 120)]> ∅))
      (omap id [tableCell (theme config); tableCellHeader (theme config)])
  ∧ style (createDOM this config) !! "backgroundColor" = None
  ∧ (∀ node, style (createDOM node config) !! "backgroundColor" = None)
  ∧ (∀ node, tagName (createDOM node config)
             = if hasHeader node then "th" else "td")
  ∧ (∀ node, hasHeader node = true ↔ __headerState node ≠ NO_STATUS)
  ∧ (∀ node, toBoolean (__width node) = true →
             style (createDOM node config) !! "width" = Some (px (__width node)))
  ∧ (∀ node, toBoolean (__borderStyle node) = true →
             style (createDOM node config) !! "border"
             = Some (CssString (template (__borderStyle node)))).
Proof.
  split; [reflexivity |]. split; [reflexivity |].
  split; [apply createDOM_backgroundColor |].
  split; [apply createDOM_tagName |].
  split; [apply hasHeader_iff |].
  split; [apply createDOM_width | apply createDOM_border].
Qed.

(** C10. [updateDOM] returns [true] exactly when the header state or the
    width of the previous node differs from the current one. A node that
    differs from the previous one only in its background colour and border
    style makes it return [false], and the rendered element is then kept
    as it is. *)
Theorem updateDOM_iff (this prevNode : TableCellNode) :
  (updateDOM this prevNode = true
   ↔ __headerState prevNode ≠ __headerState this
     ∨ __width prevNode ≠ __width this)
  ∧ (∀ bg border dom,
       let next := set__borderStyle border
                     (set__backgroundColorStyle bg prevNode) in
       updateDOM next prevNode = false
       ∧ reconcile prevNode next config dom = dom).
Proof.
  split.
  - unfold updateDOM. rewrite orb_true_iff, !negb_true_iff, !bool_decide_eq_false.
    reflexivity.
  - intros bg border dom next.
    assert (updateDOM next prevNode = false) as Hno.
    { unfold updateDOM, next. cbn.
      rewrite !bool_decide_eq_true_2 by reflexivity. reflexivity. }
    split; [exact Hno |]. unfold reconcile. rewrite Hno. reflexivity.
Qed.

End Rendering.

Section ExportDOM.

(** C9. Given the element of the base export and a parent row, [exportDOM]
    returns that element with the border ["1px solid black"]; with the width
    stored in [__width] when the node has one (a width for which
    [this.getWidth() || ...] takes its left operand, that is, a non-zero
    number), and otherwise with the double [Math.max(90, 700 / colCount)]
    for the [colCount] children of the parent, which for 3 columns is the
    double written [233.33333333333334] and for 8 columns is 90; and with
    the header shading ["#f2f3f5"] as background when the node has a header,
    the background of the base element being kept when it has none. *)
#[warnings="-inexact-float"]
Theorem exportDOM_styles (this : TableCellNode) (base : HTMLElement)
    (parent : LexicalNode) :
  let colCount := getChildrenSize parent in
  ∃ element width,
    exportDOM this (Some base) (Some parent) = Ok (Some element)
    ∧ style element !! "border" = Some (CssString "1px solid black")
    ∧ style element !! "width" = Some (CssDoublePixels width)
    ∧ (∀ w, __width this = Some w → w ≠ 0 → width = numberOfZ w)
    ∧ (__width this = None ∨ __width this = Some 0 →
         width = Math_max (numberOfZ 90)
                   (PrimFloat.div (numberOfZ 700) (numberOfZ colCount))
         ∧ (colCount = 3 → width = 233.33333333333334%float)
         ∧ (colCount = 8 → width = 90%float))
    ∧ (hasHeader this = true →
         style element !! "backgroundColor" = Some (CssString "#f2f3f5"))
    ∧ (hasHeader this = false →
         style element !! "backgroundColor" = style base !! "backgroundColor").
Proof.
  intros colCount. unfold exportDOM. fold colCount.
  eexists.
  exists (orElse (__width this)
            (Math_max (numberOfZ 90)
               (PrimFloat.div (numberOfZ 700) (numberOfZ colCount)))).
  split; [reflexivity |].
  split; [destruct (hasHeader this); cbn;
          by rewrite ?lookup_insert_ne, lookup_insert_eq by discriminate |].
  split; [destruct (hasHeader this); cbn;
          by rewrite ?lookup_insert_ne, lookup_insert_eq by discriminate |].
  split; [| split; [| split]].
  - intros w Hw Hnz. rewrite Hw. cbn [orElse].
    unfold toBoolean, number_ToBoolean.
    apply Z.eqb_neq in Hnz. rewrite Hnz. reflexivity.
  - intros Hunset.
    assert (orElse (__width this)
              (Math_max (numberOfZ 90)
                 (PrimFloat.div (numberOfZ 700) (numberOfZ colCount)))
            = Math_max (numberOfZ 90)
                (PrimFloat.div (numberOfZ 700) (numberOfZ colCount))) as ->
      by (destruct Hunset as [-> | ->]; reflexivity).
    split; [reflexivity |].
    split; intros ->; vm_compute; reflexivity.
  - intros Hheader. rewrite Hheader. cbn. by rewrite lookup_insert_eq.
  - intros Hheader. rewrite Hheader. cbn.
    by rewrite !lookup_insert_ne by discriminate.
Qed.

End ExportDOM.

Section CellStyle.

Lemma borderShorthand_truthy width style color :
  toBoolean (borderShorthand width style color) = true.
Proof. unfold borderShorthand. destruct width; reflexivity. Qed.


Lemma styleCellOptions_top cellStyle bg top bottom right left elemKey :
  toBoolean top = true →
  let element := (styleCellOptions cellStyle bg top bottom right left elemKey).1 in
  style element !! "borderTop" = Some (CssString top)
  ∧ style element !! "borderRadius" = Some (CssString "10px").
Proof.
  intros Htop. unfold styleCellOptions. rewrite Htop.
  destruct (toBoolean bottom), (toBoolean right), (toBoolean left); cbn;
    split; by rewrite ?lookup_insert_ne, lookup_insert_eq by discriminate.
Qed.









End CellStyle.

Section InsertRow.

Lemma openMenu_tableCellNode selection anchor :
  tableCellNode (openMenu selection anchor) = anchor.
Proof. destruct selection; reflexivity. Qed.

Lemma openMenu_rows selection anchor :
  rows (selectionCounts (openMenu selection anchor))
  = match selection with
    | GridSelection shape => toY shape - fromY shape + 1
    | _ => 1
    end.
Proof. destruct selection; reflexivity. Qed.

(** C5. A menu opened while [openSelection] was the selection issues, on
    "insert row above" ([shouldInsertAfter = false]) and "insert row below"
    ([true]), one [$insertTableRow] call: at the top edge [fromY] or the
    bottom edge [toY] of the grid selection that is active when the callback
    runs, and at the anchor cell's row index when no grid selection is
    active; with the row count that was read when the menu was opened,
    [toY - fromY + 1] of the grid selection of that moment and 1 without
    one. For a selection of rows 2 to 4 and the anchor in row 3 this inserts
    3 rows at index 2 (above) and 3 rows at index 4 (below). *)
Theorem insertTableRowAtSelection_call (openSelection : Selection)
    (anchor : TableCellNode) (host : Host) (shouldInsertAfter : bool) :
  let s := openMenu openSelection anchor in
  let tableNode := getTableNodeFromLexicalNodeOrThrow host anchor in
  insertTableRowAtSelection s host shouldInsertAfter
  = [InsertTableRow tableNode
       (match getSelection host with
        | GridSelection shape =>
            if shouldInsertAfter then toY shape else fromY shape
        | _ => getTableRowIndexFromTableCellNode host anchor
        end)
       shouldInsertAfter
       (match openSelection with
        | GridSelection shape => toY shape - fromY shape + 1
        | _ => 1
        end)
       (ElementGridOf tableNode);
     ClearTableSelection; OnClose]
  ∧ (∀ fromX toX table,
       let selection := GridSelection (mkShape fromX 2 toX 4) in
       let host' := mkHost selection (λ _, table) (λ _, 3) (λ _, fromX) in
       let s' := openMenu selection anchor in
       insertTableRowAtSelection s' host' false
       = [InsertTableRow table 2 false 3 (ElementGridOf table);
          ClearTableSelection; OnClose]
       ∧ insertTableRowAtSelection s' host' true
         = [InsertTableRow table 4 true 3 (ElementGridOf table);
            ClearTableSelection; OnClose]).
Proof.
  split.
  - unfold insertTableRowAtSelection.
    rewrite openMenu_tableCellNode, openMenu_rows. reflexivity.
  - intros fromX toX table. split; reflexivity.
Qed.

End InsertRow.

Section Conversion.

Lemma convert_headerState domNode t :
  __headerState (node (convertTableCellNodeElement domNode t).1)
  = if bool_decide (toLowerCase (nodeName domNode) = "th") then ROW
    else NO_STATUS.
Proof. reflexivity. Qed.

Lemma forChild_of_cell domNode t child cell children :
  forChild (convertTableCellNodeElement domNode t).1 child
    (Some (Cell cell children))
  = if isElementNode child then Some child
    else if isLineBreakNode child && bool_decide (getTextContent child = newline)
         then None
         else Some (Paragraph [child]).
Proof. cbn. destruct child; reflexivity. Qed.

(** C6. The conversion of a [th] element creates a cell node with header
    state ROW and that of a [td] element one with NO_STATUS. Of the nodes
    converted from the children of the element, [forChild] returns an
    element node as it is, returns [null] for a line-break node whose text
    content is exactly ["\n"], and wraps every other node in a new paragraph
    node. A [th] element whose only child is such a line break therefore
    becomes a ROW header cell without children. *)
Theorem convertTableCellNodeElement_children (t : Transaction) :
  (∀ tag, tag ∈ ["th"; "TH"] →
     __headerState (node (convertTableCellNodeElement (mkDOMNode tag) t).1) = ROW)
  ∧ (∀ tag, tag ∈ ["td"; "TD"] →
     __headerState (node (convertTableCellNodeElement (mkDOMNode tag) t).1)
     = NO_STATUS)
  ∧ (∀ domNode child cell children,
       let output := (convertTableCellNodeElement domNode t).1 in
       let parent := Some (Cell cell children) in
       (isElementNode child = true → forChild output child parent = Some child)
       ∧ (isElementNode child = false →
          isLineBreakNode child = true → getTextContent child = newline →
          forChild output child parent = None)
       ∧ (isElementNode child = false →
          ¬ (isLineBreakNode child = true ∧ getTextContent child = newline) →
          forChild output child parent = Some (Paragraph [child])))
  ∧ (∃ cell,
       (importTableCellElement (mkDOMNode "TH") [LineBreak newline] t).1
       = Cell cell []
       ∧ __headerState cell = ROW).
Proof.
  split; [| split; [| split]].
  - intros tag Htag. rewrite convert_headerState.
    apply list_elem_of_In in Htag. destruct Htag as [<- | [<- | []]]; reflexivity.
  - intros tag Htag. rewrite convert_headerState.
    apply list_elem_of_In in Htag. destruct Htag as [<- | [<- | []]]; reflexivity.
  - intros domNode child cell children output parent.
    unfold output, parent. rewrite forChild_of_cell.
    split; [| split].
    + intros ->. reflexivity.
    + intros -> -> ->. rewrite bool_decide_eq_true_2 by reflexivity. reflexivity.
    + intros -> Hkeep.
      destruct (isLineBreakNode child) eqn:Hbr; [| reflexivity].
      rewrite bool_decide_eq_false_2; [reflexivity |].
      intros Htext. apply Hkeep. split; [reflexivity | exact Htext].
  - eexists. split; reflexivity.
Qed.

End Conversion.

Section ToggleColumn.

Lemma cellAt_Some tableColumnIndex tableRow tableCell children :
  cellAt tableColumnIndex tableRow = Some (tableCell, children) →
  0 ≤ tableColumnIndex < Z.of_nat (length (getChildren tableRow))
  ∧ getChildren tableRow !! Z.to_nat tableColumnIndex
    = Some (Cell tableCell children).
Proof.
  unfold cellAt. destruct (tableColumnIndex <? 0) eqn:Hneg; [discriminate |].
  apply Z.ltb_ge in Hneg.
  destruct (getChildren tableRow !! Z.to_nat tableColumnIndex) as [child |] eqn:Hchild;
    [| discriminate].
  destruct child; try discriminate. intros [= -> ->].
  apply lookup_lt_Some in Hchild. split; [lia | reflexivity].
Qed.

Lemma cellAt_None tableColumnIndex tableRow :
  cellAt tableColumnIndex tableRow = None ↔
  (tableColumnIndex < 0 ∨ Z.of_nat (length (getChildren tableRow)) ≤ tableColumnIndex)
  ∨ (∃ child, getChildren tableRow !! Z.to_nat tableColumnIndex = Some child
              ∧ isTableCellNode (Some child) = false).
Proof.
  unfold cellAt. destruct (tableColumnIndex <? 0) eqn:Hneg.
  - apply Z.ltb_lt in Hneg. split; [intros _; left; left; exact Hneg | reflexivity].
  - apply Z.ltb_ge in Hneg.
    destruct (getChildren tableRow !! Z.to_nat tableColumnIndex) as [child |] eqn:Hchild.
    + apply lookup_lt_Some in Hchild as Hlt. split.
      * intros Hnone. right. exists child. split; [reflexivity |].
        destruct child; try reflexivity. discriminate Hnone.
      * intros [[Hlo | Hhi] | (child' & [= <-] & Hkind)]; try lia.
        destruct child; try reflexivity. discriminate Hkind.
    + apply lookup_ge_None in Hchild. split; [| reflexivity].
      intros _. left. right. lia.
Qed.

(** One iteration of the loop: what a row that passes the three guards
    becomes, and which rows do not pass them. *)
Lemma toggleColumnCells_cons tableColumnIndex tableRow rest t :
  match cellAt tableColumnIndex tableRow with
  | Some (tableCell, children) =>
      if isTableRowNode tableRow then
        let '(self, t1) := toggleHeaderStyle tableCell COLUMN t in
        let '(others, t2) := toggleColumnCells tableColumnIndex rest t1 in
        toggleColumnCells tableColumnIndex (tableRow :: rest) t
        = (match others with
           | Ok rest' =>
               Ok (TableRow (<[Z.to_nat tableColumnIndex := Cell self children]>
                               (getChildren tableRow)) :: rest')
           | Throw message => Throw message
           end, t2)
      else isThrow (toggleColumnCells tableColumnIndex (tableRow :: rest) t).1 = true
  | None => isThrow (toggleColumnCells tableColumnIndex (tableRow :: rest) t).1 = true
  end.
Proof.
  destruct (cellAt tableColumnIndex tableRow) as [[tableCell children] |] eqn:Hcell.
  - apply cellAt_Some in Hcell as [Hrange Hchild].
    destruct (isTableRowNode tableRow) eqn:Hrow; cbn [toggleColumnCells];
      rewrite Hrow; cbn [negb]; [| reflexivity].
    replace (tableColumnIndex >=? Z.of_nat (length (getChildren tableRow)))
      with false by (symmetry; rewrite Z.geb_leb; apply Z.leb_gt; lia).
    replace (tableColumnIndex <? 0) with false by (symmetry; apply Z.ltb_ge; lia).
    cbn [orb]. rewrite Hchild. unfold bind, ret.
    destruct (toggleHeaderStyle tableCell COLUMN t) as [self t1].
    destruct (toggleColumnCells tableColumnIndex rest t1) as [others t2].
    reflexivity.
  - cbn [toggleColumnCells].
    destruct (isTableRowNode tableRow); cbn [negb]; [| reflexivity].
    destruct ((tableColumnIndex >=? Z.of_nat (length (getChildren tableRow)))
              || (tableColumnIndex <? 0)) eqn:Hout; [reflexivity |].
    apply orb_false_iff in Hout as [_ Hneg].
    unfold cellAt in Hcell. rewrite Hneg in Hcell.
    destruct (getChildren tableRow !! Z.to_nat tableColumnIndex) as [child |];
      [| reflexivity].
    destruct child; try reflexivity. discriminate Hcell.
Qed.

Lemma toggleColumnCells_spec tableColumnIndex tableRows t :
  match (toggleColumnCells tableColumnIndex tableRows t).1 with
  | Ok tableRows' => Forall2 (columnToggled tableColumnIndex) tableRows tableRows'
  | Throw _ =>
      Exists (λ tableRow, isTableRowNode tableRow = false
                          ∨ cellAt tableColumnIndex tableRow = None) tableRows
  end.
Proof.
  revert t. induction tableRows as [| tableRow rest IH]; intros t.
  - cbn. constructor.
  - pose proof (toggleColumnCells_cons tableColumnIndex tableRow rest t) as Hstep.
    destruct (cellAt tableColumnIndex tableRow) as [[tableCell children] |] eqn:Hcell.
    + destruct (isTableRowNode tableRow) eqn:Hrow.
      * pose proof (toggleHeaderStyle_headerState tableCell COLUMN t) as Hhs.
        pose proof (toggleHeaderStyle_key tableCell COLUMN t) as Hkey.
        destruct (toggleHeaderStyle tableCell COLUMN t) as [self t1].
        specialize (IH t1).
        destruct (toggleColumnCells tableColumnIndex rest t1) as [others t2].
        rewrite Hstep. cbn in *. destruct others as [rest' | message].
        -- constructor; [| exact IH].
           exists tableCell, children, self. repeat split; assumption.
        -- apply Exists_cons_tl. exact IH.
      * destruct (toggleColumnCells tableColumnIndex (tableRow :: rest) t).1;
          [discriminate Hstep |].
        apply Exists_cons_hd. left. exact Hrow.
    + destruct (toggleColumnCells tableColumnIndex (tableRow :: rest) t).1;
        [discriminate Hstep |].
      apply Exists_cons_hd. right. exact Hcell.
Qed.

(** C8, amended. [toggleTableColumnIsHeader] throws exactly when some child
    of the table is not a table row node, or is one in which the anchor's
    column index is out of the bounds of the cells or the child at that
    index is not a table cell node. When it does not throw, every row comes
    back with the header state of its cell at that index toggled by COLUMN
    (for a header state of 0..3 this is [XOR COLUMN]) and its other cells
    unchanged, and the callback clears the table selection and closes the
    menu. *)
Theorem toggleTableColumnIsHeader_outcome (s : TableActionMenu) (host : Host)
    (tableRows : list LexicalNode) (t : Transaction) :
  let tableColumnIndex :=
    getTableColumnIndexFromTableCellNode host (tableCellNode s) in
  let outcome := (toggleTableColumnIsHeader s host tableRows t).1 in
  (isThrow outcome = true
   ↔ ∃ tableRow, tableRow ∈ tableRows
       ∧ (isTableRowNode tableRow = false
          ∨ cellAt tableColumnIndex tableRow = None))
  ∧ (∀ tableRows' calls,
       outcome = Ok (tableRows', calls) →
       Forall2 (columnToggled tableColumnIndex) tableRows tableRows'
       ∧ calls = [ClearTableSelection; OnClose])
  ∧ (∀ b, validHeaderState b → toggled b COLUMN = Z.lxor b COLUMN).
Proof.
  intros tableColumnIndex outcome.
  pose proof (toggleColumnCells_spec tableColumnIndex tableRows t) as Hspec.
  assert (outcome
          = match (toggleColumnCells tableColumnIndex tableRows t).1 with
            | Ok tableRows' => Ok (tableRows', [ClearTableSelection; OnClose])
            | Throw message => Throw message
            end) as Houtcome.
  { unfold outcome, toggleTableColumnIsHeader, bind, ret.
    fold tableColumnIndex.
    destruct (toggleColumnCells tableColumnIndex tableRows t) as [[rows' | m] t'];
      reflexivity. }
  rewrite Houtcome. clear Houtcome outcome.
  destruct (toggleColumnCells tableColumnIndex tableRows t).1
    as [tableRows' | message]; cbn.
  - split; [| split].
    + split; [discriminate |].
      intros (tableRow & Hin & Hbad). exfalso.
      apply list_elem_of_lookup in Hin as [r Hr].
      destruct (Forall2_lookup_l _ _ _ _ _ Hspec Hr)
        as (tableRow' & _ & tableCell & children & self & Hrow & Hcell & _).
      destruct Hbad as [Hbad | Hbad]; congruence.
    + intros rows' calls [= <- <-]. split; [exact Hspec | reflexivity].
    + intros b Hb. apply toggled_lxor; [exact Hb | right; reflexivity].
  - split; [| split].
    + split; [| reflexivity]. intros _.
      apply Exists_exists in Hspec as (tableRow & Hin & Hbad).
      exists tableRow. split; [exact Hin | exact Hbad].
    + intros rows' calls [=].
    + intros b Hb. apply toggled_lxor; [exact Hb | right; reflexivity].
Qed.

(** C8 as stated fails: a table whose second child is a paragraph makes the
    callback throw ["Expected table row"], although the anchor's column
    index 0 is within bounds and names a table cell in every child. *)
Lemma toggleTableColumnIsHeader_throws_on_non_row :
  let anchor := mkTableCellNode 1 "3" NO_STATUS None None None in
  let other := mkTableCellNode 1 "5" NO_STATUS None None None in
  let tableRows := [TableRow [Cell anchor []]; Paragraph [Cell other []]] in
  let host := mkHost RangeSelection (λ _, "1") (λ _, 0) (λ _, 0) in
  let s := openMenu RangeSelection anchor in
  (toggleTableColumnIsHeader s host tableRows (mkTransaction ∅ 9)).1
  = Throw "Expected table row"
  ∧ ¬ (∃ tableRow, tableRow ∈ tableRows ∧ cellAt 0 tableRow = None).
Proof.
  cbn zeta. split; [reflexivity |].
  intros (tableRow & Hin & Hnone).
  apply list_elem_of_In in Hin. destruct Hin as [<- | [<- | []]]; discriminate Hnone.
Qed.

End ToggleColumn.

(** * Further properties of the table cell node *)

Section HeaderBits.

Lemma land_pow2 b k :
  0 ≤ k → Z.land b (2 ^ k) = if Z.testbit b k then 2 ^ k else 0.
Proof.
  intros Hk. apply Z.bits_inj. intros i.
  rewrite Z.land_spec, Z.pow2_bits_eqb by exact Hk.
  destruct (Z.testbit b k) eqn:Hbit.
  - rewrite Z.pow2_bits_eqb by exact Hk.
    destruct (k =? i) eqn:Hki; [| apply andb_false_r].
    apply Z.eqb_eq in Hki. subst i. rewrite Hbit. reflexivity.
  - rewrite Z.bits_0.
    destruct (k =? i) eqn:Hki; [| apply andb_false_r].
    apply Z.eqb_eq in Hki. subst i. rewrite Hbit. reflexivity.
Qed.

Lemma single_bit_mask b m :
  headerBit m → Z.land b m = m ∨ Z.land b m = 0.
Proof.
  intros [-> | ->].
  - change ROW with (2 ^ 0). rewrite land_pow2 by lia.
    destruct (Z.testbit b 0); [left | right]; reflexivity.
  - change COLUMN with (2 ^ 1). rewrite land_pow2 by lia.
    destruct (Z.testbit b 1); [left | right]; reflexivity.
Qed.

Lemma toggled_mask_lxor b m :
  Z.land b m = m ∨ Z.land b m = 0 → toggled b m = Z.lxor b m.
Proof.
  intros Hmask. unfold toggled.
  destruct (Z.land b m =? m) eqn:Hset.
  - apply Z.eqb_eq in Hset.
    assert (∀ i, Z.testbit m i = true → Z.testbit b i = true) as Hsub.
    { intros i Hi. rewrite <- Hset, Z.land_spec in Hi.
      apply andb_true_iff in Hi as [Hb _]. exact Hb. }
    rewrite Z.sub_nocarry_ldiff.
    + apply Z.bits_inj. intros i.
      rewrite Z.ldiff_spec, Z.lxor_spec.
      specialize (Hsub i).
      destruct (Z.testbit m i), (Z.testbit b i); try reflexivity.
      discriminate (Hsub eq_refl).
    + apply Z.bits_inj. intros i.
      rewrite Z.ldiff_spec, Z.bits_0. specialize (Hsub i).
      destruct (Z.testbit m i); [| reflexivity].
      rewrite (Hsub eq_refl). reflexivity.
  - apply Z.eqb_neq in Hset.
    destruct Hmask as [Hall | Hnone]; [contradiction |].
    apply Z.add_nocarry_lxor. exact Hnone.
Qed.

Lemma lxor_mask_complement b m :
  Z.land b m = m ∨ Z.land b m = 0 →
  Z.land (Z.lxor b m) m = m ∨ Z.land (Z.lxor b m) m = 0.
Proof.
  intros [Hall | Hnone].
  - right. apply Z.bits_inj. intros i.
    rewrite Z.land_spec, Z.lxor_spec, Z.bits_0.
    assert (Z.testbit (Z.land b m) i = Z.testbit m i) as Hi by (rewrite Hall; reflexivity).
    rewrite Z.land_spec in Hi.
    destruct (Z.testbit b i), (Z.testbit m i); try reflexivity; discriminate Hi.
  - left. apply Z.bits_inj. intros i.
    rewrite Z.land_spec, Z.lxor_spec.
    assert (Z.testbit (Z.land b m) i = false) as Hi
      by (rewrite Hnone; apply Z.bits_0).
    rewrite Z.land_spec in Hi.
    destruct (Z.testbit b i), (Z.testbit m i); try reflexivity; discriminate Hi.
Qed.

Lemma toggled_twice b m :
  Z.land b m = m ∨ Z.land b m = 0 → toggled (toggled b m) m = b.
Proof.
  intros Hmask. rewrite (toggled_mask_lxor b m Hmask).
  rewrite toggled_mask_lxor by (apply lxor_mask_complement; exact Hmask).
  rewrite Z.lxor_assoc, Z.lxor_nilpotent, Z.lxor_0_r. reflexivity.
Qed.

Lemma toggled_changes b m : m ≠ 0 → toggled b m ≠ b.
Proof. intros Hm. unfold toggled. destruct (Z.land b m =? m); lia. Qed.

Lemma lxor_exact a b :
  exactHeaderNumber a → exactHeaderNumber b → exactHeaderNumber (Z.lxor a b).
Proof.
  unfold exactHeaderNumber. intros [Ha Ha'] [Hb Hb'].
  assert (0 ≤ Z.lxor a b) as Hnonneg by (apply Z.lxor_nonneg; tauto).
  split; [exact Hnonneg |].
  destruct (Z.eq_dec (Z.lxor a b) 0) as [-> | Hpos]; [reflexivity |].
  apply Z.log2_lt_pow2; [lia |].
  pose proof (Z.log2_lxor a b Ha Hb) as Hlog.
  assert (Z.log2 a < 31) as Hla.
  { destruct (Z.eq_dec a 0) as [-> | Hnz]; [reflexivity |].
    apply Z.log2_lt_pow2; lia. }
  assert (Z.log2 b < 31) as Hlb.
  { destruct (Z.eq_dec b 0) as [-> | Hnz]; [reflexivity |].
    apply Z.log2_lt_pow2; lia. }
  lia.
Qed.

(** X1. For a header state [b] and a mask [m] that are integers of
    0..2^31-1, with the bits of [m] either all set or all clear in [b],
    [toggleHeaderStyle(m)] leaves [b XOR m], again an integer of 0..2^31-1,
    and a second call on the returned node restores [b]. *)
Theorem toggleHeaderStyle_mask_xor (this : TableCellNode) (m : Z) (t : Transaction) :
  exactHeaderNumber (__headerState this) →
  exactHeaderNumber m →
  Z.land (__headerState this) m = m ∨ Z.land (__headerState this) m = 0 →
  let '(self, t1) := toggleHeaderStyle this m t in
  let '(self2, _) := toggleHeaderStyle self m t1 in
  __headerState self = Z.lxor (__headerState this) m
  ∧ exactHeaderNumber (__headerState self)
  ∧ __headerState self2 = __headerState this.
Proof.
  intros Hb Hm Hmask.
  pose proof (toggleHeaderStyle_headerState this m t) as H1.
  destruct (toggleHeaderStyle this m t) as [self t1]. cbn in H1.
  pose proof (toggleHeaderStyle_headerState self m t1) as H2.
  destruct (toggleHeaderStyle self m t1) as [self2 t2]. cbn in H2.
  assert (__headerState self = Z.lxor (__headerState this) m) as Hxor
    by (rewrite H1; apply toggled_mask_lxor; exact Hmask).
  split; [exact Hxor |].
  split; [rewrite Hxor; apply lxor_exact; assumption |].
  rewrite H2, H1. apply toggled_twice. exact Hmask.
Qed.

Lemma toggleHeaderStyle_mask_xor_witness :
  let this := mkTableCellNode 1 "4" 7 None None None in
  let t := mkTransaction ∅ 9 in
  exactHeaderNumber (__headerState this)
  ∧ exactHeaderNumber BOTH
  ∧ (Z.land (__headerState this) BOTH = BOTH ∨ Z.land (__headerState this) BOTH = 0)
  ∧ let '(self, t1) := toggleHeaderStyle this BOTH t in
    let '(self2, _) := toggleHeaderStyle self BOTH t1 in
    __headerState self = Z.lxor (__headerState this) BOTH
    ∧ exactHeaderNumber (__headerState self)
    ∧ __headerState self2 = __headerState this.
Proof.
  assert (exactHeaderNumber 7) as Hb by (unfold exactHeaderNumber; lia).
  assert (exactHeaderNumber BOTH) as Hm by (unfold exactHeaderNumber, BOTH; lia).
  assert (Z.land 7 BOTH = BOTH ∨ Z.land 7 BOTH = 0) as Hmask by (left; reflexivity).
  split; [exact Hb |]. split; [exact Hm |]. split; [exact Hmask |].
  exact (toggleHeaderStyle_mask_xor (mkTableCellNode 1 "4" 7 None None None)
           BOTH (mkTransaction ∅ 9) Hb Hm Hmask).
Defined.

(** X2. For a header state that is an integer of 0..2^31-1, toggling ROW
    and then COLUMN leaves the same header state as toggling COLUMN and then
    ROW, namely the state with both bits flipped, again an integer of
    0..2^31-1. *)
Theorem toggleHeaderStyle_row_column_commute (this : TableCellNode) (t : Transaction) :
  exactHeaderNumber (__headerState this) →
  let '(row1, t1) := toggleHeaderStyle this ROW t in
  let '(row2, _) := toggleHeaderStyle row1 COLUMN t1 in
  let '(column1, u1) := toggleHeaderStyle this COLUMN t in
  let '(column2, _) := toggleHeaderStyle column1 ROW u1 in
  __headerState row2 = Z.lxor (__headerState this) BOTH
  ∧ __headerState column2 = __headerState row2
  ∧ exactHeaderNumber (__headerState row1)
  ∧ exactHeaderNumber (__headerState column1)
  ∧ exactHeaderNumber (__headerState row2).
Proof.
  intros Hexact.
  pose proof (toggleHeaderStyle_headerState this ROW t) as Hr1.
  destruct (toggleHeaderStyle this ROW t) as [row1 t1]. cbn in Hr1.
  pose proof (toggleHeaderStyle_headerState row1 COLUMN t1) as Hr2.
  destruct (toggleHeaderStyle row1 COLUMN t1) as [row2 t2]. cbn in Hr2.
  pose proof (toggleHeaderStyle_headerState this COLUMN t) as Hc1.
  destruct (toggleHeaderStyle this COLUMN t) as [column1 u1]. cbn in Hc1.
  pose proof (toggleHeaderStyle_headerState column1 ROW u1) as Hc2.
  destruct (toggleHeaderStyle column1 ROW u1) as [column2 u2]. cbn in Hc2.
  rewrite toggled_mask_lxor in Hr1, Hr2, Hc1, Hc2
    by (apply single_bit_mask; (left; reflexivity) || (right; reflexivity)).
  assert (exactHeaderNumber ROW) as Hrow by (unfold exactHeaderNumber, ROW; lia).
  assert (exactHeaderNumber COLUMN) as Hcolumn
    by (unfold exactHeaderNumber, COLUMN; lia).
  assert (exactHeaderNumber (__headerState row1)) as Hx1
    by (rewrite Hr1; apply lxor_exact; assumption).
  assert (exactHeaderNumber (__headerState column1)) as Hy1
    by (rewrite Hc1; apply lxor_exact; assumption).
  assert (exactHeaderNumber (__headerState row2)) as Hx2
    by (rewrite Hr2; apply lxor_exact; assumption).
  split; [rewrite Hr2, Hr1, Z.lxor_assoc; reflexivity |].
  split; [rewrite Hr2, Hr1, Hc2, Hc1, !Z.lxor_assoc; f_equal |].
  split; [exact Hx1 |]. split; [exact Hy1 | exact Hx2].
Qed.

Lemma toggleHeaderStyle_row_column_commute_witness :
  let this := mkTableCellNode 1 "4" COLUMN None None None in
  let t := mkTransaction ∅ 9 in
  exactHeaderNumber (__headerState this)
  ∧ let '(row1, t1) := toggleHeaderStyle this ROW t in
    let '(row2, _) := toggleHeaderStyle row1 COLUMN t1 in
    let '(column1, u1) := toggleHeaderStyle this COLUMN t in
    let '(column2, _) := toggleHeaderStyle column1 ROW u1 in
    __headerState row2 = Z.lxor (__headerState this) BOTH
    ∧ __headerState column2 = __headerState row2
    ∧ exactHeaderNumber (__headerState row1)
    ∧ exactHeaderNumber (__headerState column1)
    ∧ exactHeaderNumber (__headerState row2).
Proof.
  assert (exactHeaderNumber COLUMN) as Hexact
    by (unfold exactHeaderNumber, COLUMN; lia).
  split; [exact Hexact |].
  exact (toggleHeaderStyle_row_column_commute
           (mkTableCellNode 1 "4" COLUMN None None None) (mkTransaction ∅ 9)
           Hexact).
Defined.

(** X3. Toggling the mask BOTH keeps the header state within 0..3 only from
    NO_STATUS and from BOTH: from ROW it leaves 4 and from COLUMN it leaves
    5, because the bits of the mask are then neither all set nor all
    clear. *)
Theorem toggleHeaderStyle_BOTH_leaves_range (this : TableCellNode) (t : Transaction) :
  validHeaderState (__headerState this) →
  let self := (toggleHeaderStyle this BOTH t).1 in
  (validHeaderState (__headerState self)
   ↔ __headerState this = NO_STATUS ∨ __headerState this = BOTH)
  ∧ (__headerState this = ROW → __headerState self = 4)
  ∧ (__headerState this = COLUMN → __headerState self = 5).
Proof.
  intros Hvalid self. unfold self.
  rewrite toggleHeaderStyle_headerState.
  unfold validHeaderState, NO_STATUS, ROW, COLUMN, BOTH in *.
  assert (__headerState this = 0 ∨ __headerState this = 1
          ∨ __headerState this = 2 ∨ __headerState this = 3) as Hcases by lia.
  destruct Hcases as [-> | [-> | [-> | ->]]];
    match goal with
    | |- context [toggled ?b ?m] =>
        let v := eval vm_compute in (toggled b m) in
        change (toggled b m) with v
    end; lia.
Qed.

Lemma toggleHeaderStyle_BOTH_leaves_range_witness :
  let this := mkTableCellNode 1 "4" ROW None None None in
  let t := mkTransaction ∅ 9 in
  validHeaderState (__headerState this)
  ∧ let self := (toggleHeaderStyle this BOTH t).1 in
    (validHeaderState (__headerState self)
     ↔ __headerState this = NO_STATUS ∨ __headerState this = BOTH)
    ∧ (__headerState this = ROW → __headerState self = 4)
    ∧ (__headerState this = COLUMN → __headerState self = 5).
Proof.
  assert (validHeaderState ROW) as Hvalid by (unfold validHeaderState, ROW; lia).
  split; [exact Hvalid |].
  exact (toggleHeaderStyle_BOTH_leaves_range
           (mkTableCellNode 1 "4" ROW None None None) (mkTransaction ∅ 9) Hvalid).
Defined.

End HeaderBits.

Section HeaderQueries.

Lemma land_lxor_set b m : Z.land b m = m → Z.land (Z.lxor b m) m = 0.
Proof.
  intros Hall. apply Z.bits_inj. intros i.
  rewrite Z.land_spec, Z.lxor_spec, Z.bits_0.
  assert (Z.testbit (Z.land b m) i = Z.testbit m i) as Hi by (rewrite Hall; reflexivity).
  rewrite Z.land_spec in Hi.
  destruct (Z.testbit b i), (Z.testbit m i); try reflexivity; discriminate Hi.
Qed.

Lemma land_lxor_clear b m : Z.land b m = 0 → Z.land (Z.lxor b m) m = m.
Proof.
  intros Hnone. apply Z.bits_inj. intros i.
  rewrite Z.land_spec, Z.lxor_spec.
  assert (Z.testbit (Z.land b m) i = false) as Hi by (rewrite Hnone; apply Z.bits_0).
  rewrite Z.land_spec in Hi.
  destruct (Z.testbit b i), (Z.testbit m i); try reflexivity; discriminate Hi.
Qed.

Lemma land_lxor_disjoint b m m' :
  Z.land m m' = 0 → Z.land (Z.lxor b m) m' = Z.land b m'.
Proof.
  intros Hdisjoint. apply Z.bits_inj. intros i.
  rewrite !Z.land_spec, Z.lxor_spec.
  assert (Z.testbit (Z.land m m') i = false) as Hi
    by (rewrite Hdisjoint; apply Z.bits_0).
  rewrite Z.land_spec in Hi.
  destruct (Z.testbit b i), (Z.testbit m i), (Z.testbit m' i);
    try reflexivity; discriminate Hi.
Qed.

Lemma toggled_bit_test b m :
  headerBit m →
  (Z.land (toggled b m) m =? m) = negb (Z.land b m =? m).
Proof.
  intros Hm.
  assert (m ≠ 0) as Hnz by (destruct Hm as [-> | ->]; discriminate).
  pose proof (single_bit_mask b m Hm) as Hmask.
  rewrite (toggled_mask_lxor b m Hmask).
  destruct Hmask as [Hall | Hnone].
  - rewrite (land_lxor_set b m Hall), Hall, Z.eqb_refl.
    apply Z.eqb_neq. congruence.
  - rewrite (land_lxor_clear b m Hnone), Hnone, Z.eqb_refl.
    symmetry. apply negb_true_iff, Z.eqb_neq. congruence.
Qed.

Lemma toggled_other_bit_test b m m' :
  headerBit m → headerBit m' → m ≠ m' →
  (Z.land (toggled b m) m' =? m') = (Z.land b m' =? m').
Proof.
  intros Hm Hm' Hne.
  rewrite (toggled_mask_lxor b m (single_bit_mask b m Hm)).
  rewrite land_lxor_disjoint; [reflexivity |].
  destruct Hm as [-> | ->], Hm' as [-> | ->]; try contradiction; reflexivity.
Qed.

(** X4. For a bit [m] that is ROW or COLUMN and a header state that is an
    integer of 0..2^31-1, [toggleHeaderStyle(m)] inverts what
    [hasHeaderState(m)] answers and leaves the answer for the other bit as it
    was. For a header state of 0..3, [hasHeader()] holds exactly when
    [hasHeaderState] holds for ROW or for COLUMN. *)
Theorem toggleHeaderStyle_inverts_hasHeaderState (this : TableCellNode)
    (m m' : Z) (t : Transaction) :
  exactHeaderNumber (__headerState this) →
  headerBit m → headerBit m' → m ≠ m' →
  let self := (toggleHeaderStyle this m t).1 in
  hasHeaderState self m = negb (hasHeaderState this m)
  ∧ hasHeaderState self m' = hasHeaderState this m'
  ∧ exactHeaderNumber (__headerState self)
  ∧ (validHeaderState (__headerState this) →
     hasHeader this = hasHeaderState this ROW || hasHeaderState this COLUMN).
Proof.
  intros Hexact Hm Hm' Hne self.
  assert (exactHeaderNumber (__headerState self)) as Hself.
  { unfold self. rewrite toggleHeaderStyle_headerState.
    rewrite toggled_mask_lxor by (apply single_bit_mask; exact Hm).
    apply lxor_exact; [exact Hexact |].
    destruct Hm as [-> | ->]; unfold exactHeaderNumber, ROW, COLUMN; lia. }
  unfold self, hasHeaderState, getHeaderStyles, getLatest in *.
  rewrite toggleHeaderStyle_headerState in *.
  split; [apply toggled_bit_test; exact Hm |].
  split; [apply toggled_other_bit_test; assumption |].
  split; [exact Hself |].
  intros Hvalid. unfold hasHeader, getLatest, validHeaderState,
    NO_STATUS, ROW, COLUMN in *.
  assert (__headerState this = 0 ∨ __headerState this = 1
          ∨ __headerState this = 2 ∨ __headerState this = 3) as Hcases by lia.
  destruct Hcases as [-> | [-> | [-> | ->]]]; reflexivity.
Qed.

Lemma toggleHeaderStyle_inverts_hasHeaderState_witness :
  let this := mkTableCellNode 1 "4" COLUMN None None None in
  let t := mkTransaction ∅ 9 in
  exactHeaderNumber (__headerState this)
  ∧ headerBit ROW ∧ headerBit COLUMN ∧ ROW ≠ COLUMN
  ∧ let self := (toggleHeaderStyle this ROW t).1 in
    hasHeaderState self ROW = negb (hasHeaderState this ROW)
    ∧ hasHeaderState self COLUMN = hasHeaderState this COLUMN
    ∧ exactHeaderNumber (__headerState self)
    ∧ (validHeaderState (__headerState this) →
       hasHeader this = hasHeaderState this ROW || hasHeaderState this COLUMN).
Proof.
  assert (exactHeaderNumber COLUMN) as Hexact
    by (unfold exactHeaderNumber, COLUMN; lia).
  assert (headerBit ROW) as Hrow by (left; reflexivity).
  assert (headerBit COLUMN) as Hcolumn by (right; reflexivity).
  assert (ROW ≠ COLUMN) as Hne by discriminate.
  split; [exact Hexact |].
  split; [exact Hrow |]. split; [exact Hcolumn |]. split; [exact Hne |].
  exact (toggleHeaderStyle_inverts_hasHeaderState
           (mkTableCellNode 1 "4" COLUMN None None None) ROW COLUMN
           (mkTransaction ∅ 9) Hexact Hrow Hcolumn Hne).
Defined.


(** X6. For a header state and a mask that are integers of 0..2^31-1, the
    mask not being 0, [toggleHeaderStyle(m)] leaves a node for which
    [updateDOM], compared with the node before, returns [true]: the header
    state has changed. *)
Theorem toggleHeaderStyle_marks_update (this : TableCellNode) (m : Z) (t : Transaction) :
  exactHeaderNumber (__headerState this) →
  exactHeaderNumber m →
  m ≠ 0 →
  updateDOM (toggleHeaderStyle this m t).1 this = true
  ∧ __headerState (toggleHeaderStyle this m t).1 ≠ __headerState this
  ∧ 0 ≤ __headerState (toggleHeaderStyle this m t).1 < 2 ^ 32.
Proof.
  intros Hb Hmask Hm. unfold updateDOM.
  rewrite toggleHeaderStyle_headerState.
  assert (toggled (__headerState this) m ≠ __headerState this) as Hchanged
    by (apply toggled_changes; exact Hm).
  split; [rewrite bool_decide_eq_false_2; [reflexivity | congruence] |].
  split; [exact Hchanged |].
  destruct (Z.land (__headerState this) m =? m) eqn:Hset.
  - apply Z.eqb_eq in Hset.
    rewrite toggled_mask_lxor by (left; exact Hset).
    pose proof (lxor_exact _ _ Hb Hmask) as Hx.
    unfold exactHeaderNumber in Hx. lia.
  - unfold toggled. rewrite Hset. unfold exactHeaderNumber in *. lia.
Qed.

Lemma toggleHeaderStyle_marks_update_witness :
  let this := mkTableCellNode 1 "4" BOTH None None None in
  let t := mkTransaction ∅ 9 in
  exactHeaderNumber (__headerState this)
  ∧ exactHeaderNumber COLUMN
  ∧ COLUMN ≠ 0
  ∧ updateDOM (toggleHeaderStyle this COLUMN t).1 this = true
  ∧ __headerState (toggleHeaderStyle this COLUMN t).1 ≠ __headerState this
  ∧ 0 ≤ __headerState (toggleHeaderStyle this COLUMN t).1 < 2 ^ 32.
Proof.
  assert (exactHeaderNumber BOTH) as Hb by (unfold exactHeaderNumber, BOTH; lia).
  assert (exactHeaderNumber COLUMN) as Hmask
    by (unfold exactHeaderNumber, COLUMN; lia).
  assert (COLUMN ≠ 0) as Hm by discriminate.
  split; [exact Hb |]. split; [exact Hmask |]. split; [exact Hm |].
  exact (toggleHeaderStyle_marks_update
           (mkTableCellNode 1 "4" BOTH None None None) COLUMN
           (mkTransaction ∅ 9) Hb Hmask Hm).
Defined.

End HeaderQueries.

Section SettersAndRendering.

Lemma getWritable_width this t :
  __width (getWritable this t).1 = __width this.
Proof.
  unfold getWritable. case_decide; [reflexivity |].
  unfold clone, new_TableCellNode, bind, setNodeKey, ret. reflexivity.
Qed.

Lemma getWritable_fresh this t :
  ¬ inWritableSnapshot this t →
  (getWritable this t).1
  = mkTableCellNode (__colSpan this) (__key this) (__headerState this)
      (__width this) (Some (__key this)) (__backgroundColorStyle this).
Proof.
  intros Hfresh. unfold getWritable. case_decide; [contradiction |].
  reflexivity.
Qed.

(** X7. In a writable snapshot or not, each setter leaves a node that holds
    the given value in its field. Compared with the node before, [updateDOM]
    returns [false] after [setBg] and after [setBorderStyle], and after
    [setWidth(width)] it returns [true] exactly when the width before was not
    [width]. *)
Theorem setters_and_updateDOM (this : TableCellNode) (t : Transaction)
    (width : Z) (bg border : string) :
  __backgroundColorStyle (setBg this bg t).1.1 = Some bg
  ∧ __borderStyle (setBorderStyle this border t).1.1 = Some border
  ∧ getWidth (setWidth this width t).1.1 = Some width
  ∧ updateDOM (setBg this bg t).1.1 this = false
  ∧ updateDOM (setBorderStyle this border t).1.1 this = false
  ∧ updateDOM (setWidth this width t).1.1 this
    = negb (bool_decide (__width this = Some width)).
Proof.
  unfold setBg, setBorderStyle, setWidth, updateDOM, getWidth, getLatest.
  pose proof (getWritable_headerState this t) as Hhs.
  pose proof (getWritable_width this t) as Hw.
  destruct (getWritable this t) as [self t']. cbn in *.
  rewrite Hhs, Hw.
  rewrite !bool_decide_eq_true_2 by reflexivity.
  repeat split.
Qed.



(** X9. The first [toggleHeaderStyle] on a node in a transaction works on a
    copy made by [clone]: the node it returns has the receiver's key as
    background colour and the receiver's background colour as border style,
    with the key, the column span and the width of the receiver. That node
    is in the writable snapshot, and a further [toggleHeaderStyle] on it
    changes neither style field. *)
Theorem first_toggle_shifts_style_fields (this : TableCellNode) (m : Z)
    (t : Transaction) :
  ¬ inWritableSnapshot this t →
  let '(self, t1) := toggleHeaderStyle this m t in
  let self2 := (toggleHeaderStyle self m t1).1 in
  __backgroundColorStyle self = Some (__key this)
  ∧ __borderStyle self = __backgroundColorStyle this
  ∧ __key self = __key this
  ∧ __colSpan self = __colSpan this
  ∧ __width self = __width this
  ∧ inWritableSnapshot self t1
  ∧ __backgroundColorStyle self2 = __backgroundColorStyle self
  ∧ __borderStyle self2 = __borderStyle self.
Proof.
  intros Hfresh.
  unfold toggleHeaderStyle at 1. unfold bind, ret.
  pose proof (getWritable_fresh this t Hfresh) as Hcopy.
  pose proof (getWritable_marks this t) as Hmark.
  destruct (getWritable this t) as [copy t1]. cbn in Hcopy, Hmark. subst copy.
  cbn [__headerState].
  set (self := if Z.land (__headerState this) m =? m then _ else _).
  assert (__backgroundColorStyle self = Some (__key this)
          ∧ __borderStyle self = __backgroundColorStyle this
          ∧ __key self = __key this
          ∧ __colSpan self = __colSpan this
          ∧ __width self = __width this) as (Hbg & Hbs & Hkey & Hspan & Hw)
    by (unfold self; destruct (Z.land (__headerState this) m =? m);
        repeat split).
  assert (inWritableSnapshot self t1) as Hwritable
    by (unfold inWritableSnapshot; rewrite Hkey; exact Hmark).
  repeat (split; [assumption |]).
  unfold toggleHeaderStyle, bind, ret.
  rewrite (getWritable_writable self t1 Hwritable).
  destruct (Z.land (__headerState self) m =? m); split; reflexivity.
Qed.

Lemma first_toggle_shifts_style_fields_witness :
  let this := mkTableCellNode 1 "7" NO_STATUS (Some 120) (Some "red") None in
  let t := mkTransaction ∅ 12 in
  ¬ inWritableSnapshot this t
  ∧ let '(self, t1) := toggleHeaderStyle this ROW t in
    let self2 := (toggleHeaderStyle self ROW t1).1 in
    __backgroundColorStyle self = Some (__key this)
    ∧ __borderStyle self = __backgroundColorStyle this
    ∧ __key self = __key this
    ∧ __colSpan self = __colSpan this
    ∧ __width self = __width this
    ∧ inWritableSnapshot self t1
    ∧ __backgroundColorStyle self2 = __backgroundColorStyle self
    ∧ __borderStyle self2 = __borderStyle self.
Proof.
  assert (¬ inWritableSnapshot
            (mkTableCellNode 1 "7" NO_STATUS (Some 120) (Some "red") None)
            (mkTransaction ∅ 12)) as Hfresh
    by (unfold inWritableSnapshot; cbn; set_solver).
  split; [exact Hfresh |].
  exact (first_toggle_shifts_style_fields
           (mkTableCellNode 1 "7" NO_STATUS (Some 120) (Some "red") None)
           ROW (mkTransaction ∅ 12) Hfresh).
Defined.

End SettersAndRendering.

Section ConversionRoundTrip.

(** X10. When the element that [createDOM] makes for a node is converted
    back, the new cell has a header exactly when the node had one, but its
    header state is ROW for every node with a header: COLUMN and BOTH come
    back as ROW, and only NO_STATUS and ROW come back as they were. The new
    cell has column span 1 and no width, background colour or border
    style. *)
Theorem createDOM_then_convert (config : EditorConfig) (this : TableCellNode)
    (domNode : DOMNode) (t : Transaction) :
  toLowerCase (nodeName domNode) = tagName (createDOM this config) →
  let imported := node (convertTableCellNodeElement domNode t).1 in
  __headerState imported = (if hasHeader this then ROW else NO_STATUS)
  ∧ hasHeader imported = hasHeader this
  ∧ (__headerState imported = __headerState this
     ↔ __headerState this = NO_STATUS ∨ __headerState this = ROW)
  ∧ __colSpan imported = 1
  ∧ __width imported = None
  ∧ __backgroundColorStyle imported = None
  ∧ __borderStyle imported = None.
Proof.
  intros Htag imported.
  assert (__headerState imported = (if hasHeader this then ROW else NO_STATUS))
    as Hstate.
  { unfold imported. rewrite convert_headerState, Htag, createDOM_tagName.
    destruct (hasHeader this); reflexivity. }
  split; [exact Hstate |].
  split; [| split; [| repeat split]].
  - unfold hasHeader at 1. unfold getLatest. rewrite Hstate.
    destruct (hasHeader this); reflexivity.
  - rewrite Hstate. destruct (hasHeader this) eqn:Hheader.
    + apply hasHeader_iff in Hheader. split; [intros <-; right; reflexivity |].
      intros [Hnone | Hrow]; [contradiction | symmetry; exact Hrow].
    + assert (__headerState this = NO_STATUS) as ->.
      { unfold hasHeader, getLatest in Hheader.
        apply negb_false_iff, Z.eqb_eq in Hheader. exact Hheader. }
      split; [intros _; left |]; reflexivity.
Qed.

Lemma createDOM_then_convert_witness :
  let config := mkEditorConfig (mkTheme (Some "cell") (Some "header")) in
  let this := mkTableCellNode 2 "7" BOTH (Some 120) (Some "red") None in
  let domNode := mkDOMNode "TH" in
  let t := mkTransaction ∅ 12 in
  toLowerCase (nodeName domNode) = tagName (createDOM this config)
  ∧ let imported := node (convertTableCellNodeElement domNode t).1 in
    __headerState imported = (if hasHeader this then ROW else NO_STATUS)
    ∧ hasHeader imported = hasHeader this
    ∧ (__headerState imported = __headerState this
       ↔ __headerState this = NO_STATUS ∨ __headerState this = ROW)
    ∧ __colSpan imported = 1
    ∧ __width imported = None
    ∧ __backgroundColorStyle imported = None
    ∧ __borderStyle imported = None.
Proof.
  assert (toLowerCase (nodeName (mkDOMNode "TH"))
          = tagName (createDOM
                       (mkTableCellNode 2 "7" BOTH (Some 120) (Some "red") None)
                       (mkEditorConfig (mkTheme (Some "cell") (Some "header")))))
    as Htag by reflexivity.
  split; [exact Htag |].
  exact (createDOM_then_convert
           (mkEditorConfig (mkTheme (Some "cell") (Some "header")))
           (mkTableCellNode 2 "7" BOTH (Some 120) (Some "red") None)
           (mkDOMNode "TH") (mkTransaction ∅ 12) Htag).
Defined.

Lemma forChild_below_cell domNode t child parent :
  isTableCellNode parent = true →
  forChild (convertTableCellNodeElement domNode t).1 child parent
  = if isElementNode child then Some child
    else if isDroppedLineBreak child then None
         else Some (Paragraph [child]).
Proof.
  intros Hparent. cbn. rewrite Hparent. unfold isDroppedLineBreak.
  destruct child; reflexivity.
Qed.

(** X11. Below a parent that is not a table cell, [forChild] returns every
    node as it is. Below a table cell, whatever it returns is an element
    node, either the child itself or a paragraph that holds just the child,
    and [forChild] returns that node unchanged when it is applied to it
    again. *)
Theorem forChild_results (domNode : DOMNode) (t : Transaction)
    (child : LexicalNode) (parent : option LexicalNode) :
  let output := (convertTableCellNodeElement domNode t).1 in
  (isTableCellNode parent = false → forChild output child parent = Some child)
  ∧ (∀ result,
       isTableCellNode parent = true →
       forChild output child parent = Some result →
       isElementNode result = true
       ∧ (result = child ∨ result = Paragraph [child])
       ∧ forChild output result parent = Some result).
Proof.
  intros output. split.
  - intros Hparent. cbn. rewrite Hparent. reflexivity.
  - intros result Hparent Hresult. unfold output in *.
    rewrite forChild_below_cell in Hresult by exact Hparent.
    rewrite forChild_below_cell by exact Hparent.
    destruct (isElementNode child) eqn:Hchild.
    + injection Hresult as <-. rewrite Hchild. auto.
    + destruct (isDroppedLineBreak child); [discriminate |].
      injection Hresult as <-. auto.
Qed.

(** X13. [exportDOM] returns no element, and does not ask for the parent,
    when the base export gave none; with an element but without a parent it
    throws; with both it never throws, and the element it returns differs
    from the base element in no style property other than [border],
    [width], [verticalAlign], [textAlign] and [backgroundColor], nor in its
    tag or its class names. *)
Theorem exportDOM_edges (this : TableCellNode) (base : HTMLElement) :
  (∀ parent, exportDOM this None parent = Ok None)
  ∧ isThrow (exportDOM this (Some base) None) = true
  ∧ (∀ parent, ∃ element,
       exportDOM this (Some base) (Some parent) = Ok (Some element)
       ∧ tagName element = tagName base
       ∧ classList element = classList base
       ∧ style element !! "verticalAlign" = Some (CssString "top")
       ∧ style element !! "textAlign" = Some (CssString "start")
       ∧ (∀ property,
            property ∉ ["border"; "width"; "verticalAlign"; "textAlign";
                        "backgroundColor"] →
            style element !! property = style base !! property)).
Proof.
  split; [reflexivity |]. split; [reflexivity |].
  intros parent. unfold exportDOM.
  eexists. split; [reflexivity |].
  destruct (hasHeader this); cbn.
  all: split; [reflexivity |]. all: split; [reflexivity |].
  all: split; [by rewrite ?lookup_insert_ne, lookup_insert_eq by discriminate |].
  all: split; [by rewrite ?lookup_insert_ne, lookup_insert_eq by discriminate |].
  all: intros property Hother;
    rewrite !lookup_insert_ne; [reflexivity | ..];
    intros <-; apply Hother; set_solver.
Qed.

End ConversionRoundTrip.

(** * Further properties of the action menu *)

Section ToggleRow.

Lemma toggleRowCells_spec tableCells t :
  match (toggleRowCells tableCells t).1 with
  | Ok tableCells' =>
      Forall2 (headerStateMapped (λ b, toggled b ROW)) tableCells tableCells'
  | Throw _ =>
      Exists (λ tableCell, isTableCellNode (Some tableCell) = false) tableCells
  end.
Proof.
  revert t. induction tableCells as [| tableCell rest IH]; intros t.
  - cbn. constructor.
  - destruct tableCell as [cellNode children | | | | |];
      try (cbn; apply Exists_cons_hd; reflexivity).
    cbn [toggleRowCells]. unfold bind, ret.
    pose proof (toggleHeaderStyle_headerState cellNode ROW t) as Hhs.
    pose proof (toggleHeaderStyle_key cellNode ROW t) as Hkey.
    destruct (toggleHeaderStyle cellNode ROW t) as [self t1].
    specialize (IH t1).
    destruct (toggleRowCells rest t1) as [[rest' | message] t2]; cbn in *.
    + constructor; [| exact IH].
      exists cellNode, children, self. repeat split; assumption.
    + apply Exists_cons_tl. exact IH.
Qed.

Lemma headerStateMapped_cells f tableCells tableCells' :
  Forall2 (headerStateMapped f) tableCells tableCells' →
  Forall (λ tableCell, isTableCellNode (Some tableCell) = true) tableCells
  ∧ Forall (λ tableCell, isTableCellNode (Some tableCell) = true) tableCells'.
Proof.
  induction 1 as [| c c' cs cs' (n & kids & self & -> & -> & _) _ [IH IH']].
  - split; constructor.
  - split; constructor; (reflexivity || assumption).
Qed.

Lemma toggleTableRowIsHeader_unfold s host tableRows t :
  let tableRowIndex := getTableRowIndexFromTableCellNode host (tableCellNode s) in
  (toggleTableRowIsHeader s host tableRows t).1
  = if (tableRowIndex <? 0) || (Z.of_nat (length tableRows) <=? tableRowIndex)
    then Throw "Expected table cell to be inside of table row."
    else match tableRows !! Z.to_nat tableRowIndex with
         | Some tableRow =>
             if isTableRowNode tableRow then
               match (toggleRowCells (getChildren tableRow) t).1 with
               | Ok tableCells' =>
                   Ok (<[Z.to_nat tableRowIndex := TableRow tableCells']> tableRows,
                       [ClearTableSelection; OnClose])
               | Throw message => Throw message
               end
             else Throw "Expected table row"
         | None => Throw "Expected table row"
         end.
Proof.
  intros tableRowIndex. unfold toggleTableRowIsHeader. fold tableRowIndex.
  rewrite Z.geb_leb, orb_comm.
  destruct ((tableRowIndex <? 0) || (Z.of_nat (length tableRows) <=? tableRowIndex));
    [reflexivity |].
  destruct (tableRows !! Z.to_nat tableRowIndex) as [tableRow |]; [| reflexivity].
  destruct (isTableRowNode tableRow); [| reflexivity].
  cbn [negb]. unfold bind, ret.
  destruct (toggleRowCells (getChildren tableRow) t) as [[cells' | message] t'];
    reflexivity.
Qed.

(** X14. [toggleTableRowIsHeader] throws exactly when the anchor's row index
    is out of the bounds of the table's children, or the child at that index
    is not a table row node, or some child of that row is not a table cell
    node. Otherwise it returns the table's children with the row at that
    index replaced by a row of the same cells, each with its header state
    toggled by ROW, and it then clears the table selection and closes the
    menu; a row without cells is accepted. *)
Theorem toggleTableRowIsHeader_outcome (s : TableActionMenu) (host : Host)
    (tableRows : list LexicalNode) (t : Transaction) :
  let tableRowIndex := getTableRowIndexFromTableCellNode host (tableCellNode s) in
  let outcome := (toggleTableRowIsHeader s host tableRows t).1 in
  (isThrow outcome = true
   ↔ (tableRowIndex < 0 ∨ Z.of_nat (length tableRows) ≤ tableRowIndex)
     ∨ ∃ tableRow, tableRows !! Z.to_nat tableRowIndex = Some tableRow
         ∧ (isTableRowNode tableRow = false
            ∨ ∃ tableCell, tableCell ∈ getChildren tableRow
                ∧ isTableCellNode (Some tableCell) = false))
  ∧ (∀ tableRows' calls,
       outcome = Ok (tableRows', calls) →
       calls = [ClearTableSelection; OnClose]
       ∧ ∃ tableRow tableCells',
           tableRows !! Z.to_nat tableRowIndex = Some tableRow
           ∧ Forall2 (headerStateMapped (λ b, toggled b ROW))
               (getChildren tableRow) tableCells'
           ∧ tableRows' = <[Z.to_nat tableRowIndex := TableRow tableCells']> tableRows).
Proof.
  intros tableRowIndex outcome. unfold outcome.
  rewrite toggleTableRowIsHeader_unfold. fold tableRowIndex.
  destruct ((tableRowIndex <? 0) || (Z.of_nat (length tableRows) <=? tableRowIndex))
    eqn:Hout.
  { apply orb_true_iff in Hout.
    split; [| intros ? ? [=]].
    split; [| reflexivity]. intros _. left.
    destruct Hout as [Hneg | Hbig]; [left; apply Z.ltb_lt | right; apply Z.leb_le];
      assumption. }
  apply orb_false_iff in Hout as [Hneg Hbig].
  apply Z.ltb_ge in Hneg. apply Z.leb_gt in Hbig.
  destruct (tableRows !! Z.to_nat tableRowIndex) as [tableRow |] eqn:Hrow.
  2: { apply lookup_ge_None in Hrow. lia. }
  destruct (isTableRowNode tableRow) eqn:Hkind.
  2: { split; [| intros ? ? [=]].
       split; [| reflexivity]. intros _. right. exists tableRow. auto. }
  pose proof (toggleRowCells_spec (getChildren tableRow) t) as Hspec.
  destruct (toggleRowCells (getChildren tableRow) t).1 as [tableCells' | message].
  - split.
    + split; [discriminate |].
      intros [[Hlo | Hhi] | (row & [= <-] & [Hbad | (c & Hin & Hbad)])];
        try lia; try congruence.
      apply headerStateMapped_cells in Hspec as [Hcells _].
      rewrite Forall_forall in Hcells. specialize (Hcells c Hin). congruence.
    + intros rows' calls [= <- <-]. split; [reflexivity |].
      exists tableRow, tableCells'. auto.
  - split; [| intros ? ? [=]].
    split; [| reflexivity]. intros _. right. exists tableRow.
    split; [reflexivity |]. right.
    apply Exists_exists in Hspec as (c & Hin & Hbad). eauto.
Qed.

End ToggleRow.

Section ToggleTwice.









End ToggleTwice.

Section InsertAndDelete.

Lemma openMenu_columns selection anchor :
  columns (selectionCounts (openMenu selection anchor))
  = match selection with
    | GridSelection shape => toX shape - fromX shape + 1
    | _ => 1
    end.
Proof. destruct selection; reflexivity. Qed.

(** X17. A menu opened while [openSelection] was the selection issues, on
    "insert column left" and "insert column right", one [$insertTableColumn]
    call: at the left edge [fromX] or the right edge [toX] of the grid
    selection that is active when the callback runs, and at the anchor
    cell's column index without one; with the column count read when the
    menu was opened, [toX - fromX + 1] of the grid selection of that moment
    and 1 without one. A grid selection made after the menu was opened thus
    moves the place of the insertion but not the number of columns. *)
Theorem insertTableColumnAtSelection_call (openSelection : Selection)
    (anchor : TableCellNode) (host : Host) (shouldInsertAfter : bool) :
  let s := openMenu openSelection anchor in
  let tableNode := getTableNodeFromLexicalNodeOrThrow host anchor in
  insertTableColumnAtSelection s host shouldInsertAfter
  = [InsertTableColumn tableNode
       (match getSelection host with
        | GridSelection shape =>
            if shouldInsertAfter then toX shape else fromX shape
        | _ => getTableColumnIndexFromTableCellNode host anchor
        end)
       shouldInsertAfter
       (match openSelection with
        | GridSelection shape => toX shape - fromX shape + 1
        | _ => 1
        end);
     ClearTableSelection; OnClose]
  ∧ (isGridSelection openSelection = false →
     ∀ shape, getSelection host = GridSelection shape →
       insertTableColumnAtSelection s host shouldInsertAfter
       = [InsertTableColumn tableNode
            (if shouldInsertAfter then toX shape else fromX shape)
            shouldInsertAfter 1;
          ClearTableSelection; OnClose]).
Proof.
  assert (insertTableColumnAtSelection (openMenu openSelection anchor) host
            shouldInsertAfter
          = [InsertTableColumn (getTableNodeFromLexicalNodeOrThrow host anchor)
               (match getSelection host with
                | GridSelection shape =>
                    if shouldInsertAfter then toX shape else fromX shape
                | _ => getTableColumnIndexFromTableCellNode host anchor
                end)
               shouldInsertAfter
               (match openSelection with
                | GridSelection shape => toX shape - fromX shape + 1
                | _ => 1
                end);
             ClearTableSelection; OnClose]) as Hcall.
  { unfold insertTableColumnAtSelection.
    rewrite openMenu_tableCellNode, openMenu_columns. reflexivity. }
  split; [exact Hcall |].
  intros Hopen shape Hnow. cbn zeta. rewrite Hcall, Hnow.
  destruct openSelection; try reflexivity. discriminate Hopen.
Qed.

(** X18. "Delete row" and "delete column" remove the row and the column of
    the anchor cell, and "delete table" its table, whatever the selection
    is: with a grid selection over rows 2 to 4 and the anchor in row 3, one
    [$removeTableRowAtIndex] call for index 3 is made, where "insert row
    above" inserts 3 rows at index 2. Each callback then clears the table
    selection and closes the menu. *)
Theorem delete_callbacks_ignore_selection (s : TableActionMenu) (host : Host)
    (selection : Selection) :
  let host' := mkHost selection
                 (getTableNodeFromLexicalNodeOrThrow host)
                 (getTableRowIndexFromTableCellNode host)
                 (getTableColumnIndexFromTableCellNode host) in
  let tableNode := getTableNodeFromLexicalNodeOrThrow host (tableCellNode s) in
  deleteTableRowAtSelection s host'
  = [Removal (RemoveTableRowAtIndex tableNode
                (getTableRowIndexFromTableCellNode host (tableCellNode s)));
     Call ClearTableSelection; Call OnClose]
  ∧ deleteTableColumnAtSelection s host'
    = [Removal (DeleteTableColumn tableNode
                  (getTableColumnIndexFromTableCellNode host (tableCellNode s)));
       Call ClearTableSelection; Call OnClose]
  ∧ deleteTableAtSelection s host'
    = [Removal (RemoveTable tableNode); Call ClearTableSelection; Call OnClose]
  ∧ (∀ anchor fromX toX table,
       let grid := GridSelection (mkShape fromX 2 toX 4) in
       let gridHost := mkHost grid (λ _, table) (λ _, 3) (λ _, fromX) in
       let opened := openMenu grid anchor in
       deleteTableRowAtSelection opened gridHost
       = [Removal (RemoveTableRowAtIndex table 3);
          Call ClearTableSelection; Call OnClose]
       ∧ insertTableRowAtSelection opened gridHost false
         = [InsertTableRow table 2 false 3 (ElementGridOf table);
            ClearTableSelection; OnClose]).
Proof.
  repeat split.
Qed.

End InsertAndDelete.

Section CellStyleFrame.

(** X19. [styleCellOptions] does not use its first two arguments, the
    general border string and the background colour of the form: the
    element it leaves is the same for all values of them. It changes no
    style property other than [borderTop], [borderRadius], [borderBottom],
    [borderRight] and [borderLeft], and neither the tag nor the class names
    of the element. *)
Theorem styleCellOptions_frame
    (cellStyle cellBackgroundColor cellStyle' cellBackgroundColor' : string)
    (top bottom right left : string) (elemKey : HTMLElement) :
  let result :=
    styleCellOptions cellStyle cellBackgroundColor top bottom right left elemKey in
  result
  = styleCellOptions cellStyle' cellBackgroundColor' top bottom right left elemKey
  ∧ result.2 = [ClearTableSelection; OnClose]
  ∧ tagName result.1 = tagName elemKey
  ∧ classList result.1 = classList elemKey
  ∧ (∀ property,
       property ∉ ["borderTop"; "borderRadius"; "borderBottom"; "borderRight";
                   "borderLeft"] →
       style result.1 !! property = style elemKey !! property).
Proof.
  intros result. unfold result, styleCellOptions.
  split; [reflexivity |]. split; [reflexivity |].
  destruct (toBoolean top), (toBoolean bottom), (toBoolean right),
    (toBoolean left); cbn.
  all: split; [reflexivity |]. all: split; [reflexivity |].
  all: intros property Hother;
    rewrite ?lookup_insert_ne; [reflexivity | ..];
    intros <-; apply Hother; set_solver.
Qed.

(** X20. The style effects reach a fixed point in one pass: running them
    again on the state they left changes nothing. They leave the anchor
    cell, the selection counts and every draft field (the background colour,
    the three general ones and the three of each edge) as they were. A
    change of one of the three top draft fields, followed by the effects,
    leaves a state that differs from the one before in that draft field and
    in the composed string of the top edge only, which is composed from the
    new value and the two other top drafts; the composed strings of the
    general border and of the bottom, right and left edges are as they
    were. *)
Theorem styleEffects_idempotent (s : TableActionMenu) (value : string) :
  let s' := styleEffects s in
  styleEffects s' = s'
  ∧ tableCellNode s' = tableCellNode s
  ∧ selectionCounts s' = selectionCounts s
  ∧ cellBackgroundColor s' = cellBackgroundColor s
  ∧ cellBorderColor s' = cellBorderColor s
  ∧ cellBorderStyle s' = cellBorderStyle s
  ∧ cellBorderWidth s' = cellBorderWidth s
  ∧ cellBorderTopColor s' = cellBorderTopColor s
  ∧ cellBorderTopStyle s' = cellBorderTopStyle s
  ∧ cellBorderTopWidth s' = cellBorderTopWidth s
  ∧ cellBorderBottomColor s' = cellBorderBottomColor s
  ∧ cellBorderBottomStyle s' = cellBorderBottomStyle s
  ∧ cellBorderBottomWidth s' = cellBorderBottomWidth s
  ∧ cellBorderLeftColor s' = cellBorderLeftColor s
  ∧ cellBorderLeftStyle s' = cellBorderLeftStyle s
  ∧ cellBorderLeftWidth s' = cellBorderLeftWidth s
  ∧ cellBorderRightColor s' = cellBorderRightColor s
  ∧ cellBorderRightStyle s' = cellBorderRightStyle s
  ∧ cellBorderRightWidth s' = cellBorderRightWidth s
  ∧ onChange setCellBorderTopWidth value s'
    = setTopBorderCellStyle
        (borderShorthand value (cellBorderTopStyle s) (cellBorderTopColor s))
        (setCellBorderTopWidth value s')
  ∧ onChange setCellBorderTopStyle value s'
    = setTopBorderCellStyle
        (borderShorthand (cellBorderTopWidth s) value (cellBorderTopColor s))
        (setCellBorderTopStyle value s')
  ∧ onChange setCellBorderTopColor value s'
    = setTopBorderCellStyle
        (borderShorthand (cellBorderTopWidth s) (cellBorderTopStyle s) value)
        (setCellBorderTopColor value s')
  ∧ (∀ setDraft,
       setDraft ∈ [setCellBorderTopWidth; setCellBorderTopStyle;
                   setCellBorderTopColor] →
       cellStyle (onChange setDraft value s') = cellStyle s'
       ∧ bottomBorderCellStyle (onChange setDraft value s')
         = bottomBorderCellStyle s'
       ∧ rightBorderCellStyle (onChange setDraft value s')
         = rightBorderCellStyle s'
       ∧ leftBorderCellStyle (onChange setDraft value s')
         = leftBorderCellStyle s').
Proof.
  intros s'. unfold s'.
  do 22 (split; [reflexivity |]).
  intros setDraft Hdraft.
  apply elem_of_cons in Hdraft as [-> | Hdraft]; [repeat split |].
  apply elem_of_cons in Hdraft as [-> | Hdraft]; [repeat split |].
  apply elem_of_cons in Hdraft as [-> | Hdraft]; [repeat split |].
  apply elem_of_nil in Hdraft. destruct Hdraft.
Qed.

End CellStyleFrame.

Section Placement.

(** X21. With a mounted button and an anchor cell that has a rendered
    element, the layout effect shows the button ([opacity] 1) with its right
    edge 10 pixels left of the right edge of the cell and its top 5 pixels
    below the top of the cell, in page coordinates. When the cell has no
    rendered element it hides the button ([opacity] 0) and leaves [left] and
    [top] as they were, and without an anchor cell it leaves the button
    untouched. *)
Theorem positionMenuButton_places (window : Window) (menuButtonDOM : HTMLElement)
    (menuRect : DOMRect.t) (anchor : TableCellNode)
    (getElementByKey : NodeKey → option DOMRect.t) :
  (∀ tableCellRect,
     getElementByKey (__key anchor) = Some tableCellRect →
     ∃ element left top,
       positionMenuButton window (Some (menuButtonDOM, menuRect)) (Some anchor)
         getElementByKey = Some element
       ∧ style element !! "opacity" = Some (CssString "1")
       ∧ style element !! "left" = Some (CssPixels (inject_Z left))
       ∧ style element !! "top" = Some (CssPixels (inject_Z top))
       ∧ left + DOMRect.width menuRect + 10
         = DOMRect.left tableCellRect + DOMRect.width tableCellRect
           + pageXOffset window
       ∧ top = DOMRect.top tableCellRect + pageYOffset window + 5)
  ∧ (getElementByKey (__key anchor) = None →
     ∃ element,
       positionMenuButton window (Some (menuButtonDOM, menuRect)) (Some anchor)
         getElementByKey = Some element
       ∧ style element !! "opacity" = Some (CssString "0")
       ∧ style element !! "left" = style menuButtonDOM !! "left"
       ∧ style element !! "top" = style menuButtonDOM !! "top")
  ∧ positionMenuButton window (Some (menuButtonDOM, menuRect)) None getElementByKey
    = Some menuButtonDOM
  ∧ positionMenuButton window None (Some anchor) getElementByKey = None.
Proof.
  split; [| split; [| split; reflexivity]].
  - intros tableCellRect Hrect. unfold positionMenuButton. rewrite Hrect.
    eexists. eexists. eexists. split; [reflexivity |]. cbn.
    split; [by rewrite ?lookup_insert_ne, lookup_insert_eq by discriminate |].
    split; [by rewrite ?lookup_insert_ne, lookup_insert_eq by discriminate |].
    split; [by rewrite ?lookup_insert_ne, lookup_insert_eq by discriminate |].
    split; [lia | reflexivity].
  - intros Hrect. unfold positionMenuButton. rewrite Hrect.
    eexists. split; [reflexivity |]. cbn.
    split; [by rewrite lookup_insert_eq |].
    split; by rewrite lookup_insert_ne by discriminate.
Qed.

(** X22. With the menu button and the dropdown both mounted, the layout
    effect shows the dropdown ([opacity] 1) with its left edge 5 pixels
    right of the right edge of the button and its top at the top of the
    button, in page coordinates; when either of them is not mounted, the
    dropdown is left as it is. *)
Theorem positionDropDown_places (window : Window) (menuButtonRect : DOMRect.t)
    (dropDownElement : HTMLElement) :
  (∃ element left,
     positionDropDown window (Some menuButtonRect) (Some dropDownElement)
     = Some element
     ∧ style element !! "opacity" = Some (CssString "1")
     ∧ style element !! "left" = Some (CssPixels (inject_Z left))
     ∧ left - pageXOffset window
       = DOMRect.left menuButtonRect + DOMRect.width menuButtonRect + 5
     ∧ style element !! "top"
       = Some (CssPixels (inject_Z (DOMRect.top menuButtonRect
                                    + pageYOffset window)))
     ∧ tagName element = tagName dropDownElement
     ∧ classList element = classList dropDownElement)
  ∧ positionDropDown window None (Some dropDownElement) = Some dropDownElement
  ∧ positionDropDown window (Some menuButtonRect) None = None.
Proof.
  split; [| split; reflexivity].
  unfold positionDropDown. eexists. eexists. split; [reflexivity |]. cbn.
  split; [by rewrite ?lookup_insert_ne, lookup_insert_eq by discriminate |].
  split; [by rewrite ?lookup_insert_ne, lookup_insert_eq by discriminate |].
  split; [lia |].
  split; [by rewrite lookup_insert_eq |].
  split; reflexivity.
Qed.

End Placement.

Section MoveMenu.

(** X23. [moveMenu] targets a cell only when the button is mounted, the
    selection is a range selection whose anchor lies in the root element,
    and the cell found from the anchor has a rendered element; the cell it
    targets is that cell. It makes no call at all, so that the cell
    targeted before stays targeted, exactly when the button is mounted, the
    selection is neither [null] nor a range selection with its anchor in the
    root element, and the document has an active element. In every other
    case it clears the targeted cell. *)
Theorem moveMenu_cases (menu : bool) (selection : Selection)
    (rootContainsAnchor : option bool)
    (tableCellNodeFromSelection : option TableCellNode)
    (rendered : NodeKey → bool) (activeElement : bool)
    (previous : option TableCellNode) :
  let call := moveMenu menu selection rootContainsAnchor
                tableCellNodeFromSelection rendered activeElement in
  let inRoot := isRangeSelection selection && default false rootContainsAnchor in
  (∀ cell, call = Some (Some cell)
           ↔ menu = true ∧ inRoot = true
             ∧ tableCellNodeFromSelection = Some cell
             ∧ rendered (__key cell) = true)
  ∧ (call = None
     ↔ menu = true ∧ isNullSelection selection = false ∧ inRoot = false
       ∧ activeElement = true)
  ∧ (call = None → afterMoveMenu previous call = previous)
  ∧ (call = Some None → afterMoveMenu previous call = None).
Proof.
  intros call inRoot. unfold call, inRoot, moveMenu.
  split; [| split; [| split]].
  - intros cell.
    destruct selection, menu, rootContainsAnchor as [[|] |],
      tableCellNodeFromSelection as [found |], activeElement; cbn;
      try destruct (rendered (__key found)) eqn:Hrendered; cbn;
      split; try discriminate; try (intros (? & ? & ? & ?); discriminate);
      try (intros [= <-]; repeat split; assumption);
      try (intros (_ & _ & [= <-] & Hr); congruence).
  - destruct selection, menu, rootContainsAnchor as [[|] |],
      tableCellNodeFromSelection as [found |], activeElement; cbn;
      try destruct (rendered (__key found)); cbn;
      split; try discriminate; try (intros (? & ? & ? & ?); discriminate);
      try (intros _; repeat split).
  - intros ->. reflexivity.
  - intros ->. reflexivity.
Qed.

End MoveMenu.
